(** * EziPay relay backend: the withdrawal workflow of [server.js]

    A shallow embedding of the Express handlers of [src/server.js] and the
    properties of the withdrawal workflow, the token cache and the payment
    creation route.

    The handlers are JavaScript [async] functions that read and write two
    Firestore collections, a module-level token cache, and talk to the
    payment gateway through [axios].  They are embedded as computations in a
    state-and-exception monad over a [World]; everything the process does not
    control (the gateway's replies, Firestore failures, generated document
    ids, configuration) is read from an [Env]. *)

From stdpp Require Import gmap strings list fin_maps.
From Stdlib Require Import ZArith Ascii String Lia.

Set Warnings "-register-all".
Local Open Scope string_scope.
Local Open Scope Z_scope.

(** ** JavaScript values *)

(** The values that flow through the handlers: parsed JSON (request bodies,
    gateway replies), [undefined], [NaN] (from [parseInt]), Firestore
    timestamps.  Numbers are integers: fractional and non-finite doubles are
    outside the model. *)
Inductive JValue : Type :=
  | JUndefined
  | JNull
  | JBool (b : bool)
  | JNum (n : Z)
  | JNaN
  | JStr (s : string)
  | JTime (t : Z)                         (* a Firestore Timestamp, in ms *)
  | JArr (xs : list JValue)
  | JObj (fields : gmap string JValue).

(** A JavaScript object / Firestore document: a finite map from keys. *)
Abbreviation Doc := (gmap string JValue).

(** ToBoolean: what [!x], [x || y] and [if (x)] look at. *)
Definition truthy (v : JValue) : bool :=
  match v with
  | JUndefined | JNull | JNaN => false
  | JBool b => b
  | JNum n => negb (n =? 0)
  | JStr s => negb (String.eqb s "")
  | JTime _ | JArr _ | JObj _ => true
  end.

(** [a || b] *)
Definition or_else (a b : JValue) : JValue := if truthy a then a else b.

(** [v === 'lit'] for a string literal. *)
Definition str_is (v : JValue) (lit : string) : bool :=
  match v with
  | JStr s => String.eqb s lit
  | _ => false
  end.

(** [o.k] for an object that is known not to be null or undefined (a
    destructured request body, a Firestore document): a missing key reads as
    [undefined]. *)
Definition field (o : Doc) (k : string) : JValue := default JUndefined (o !! k).

(** [v?.k]: no exception; primitives and arrays have none of the keys the
    handlers read. *)
Definition opt_prop (v : JValue) (k : string) : JValue :=
  match v with
  | JObj o => field o k
  | _ => JUndefined
  end.

(** An object literal [{k1: v1, k2: v2, ...}] written onto [base]; a later
    key overrides an earlier one. *)
Definition assign (base : Doc) (l : list (string * JValue)) : Doc :=
  foldl (fun m kv => <[kv.1 := kv.2]> m) base l.

Definition js_obj (l : list (string * JValue)) : JValue := JObj (assign ∅ l).

(** *** parseInt *)

(** ASCII white space (the non-ASCII StrWhiteSpaceChar code points are not
    modelled). *)
Definition is_ws (c : ascii) : bool :=
  let n := Z.of_nat (nat_of_ascii c) in
  (n =? 32) || ((9 <=? n) && (n <=? 13)).

Definition digit_val (radix : Z) (c : ascii) : option Z :=
  let n := Z.of_nat (nat_of_ascii c) in
  let v := if (48 <=? n) && (n <=? 57) then Some (n - 48)
           else if (97 <=? n) && (n <=? 122) then Some (n - 87)
           else if (65 <=? n) && (n <=? 90) then Some (n - 55)
           else None in
  match v with
  | Some d => if d <? radix then Some d else None
  | None => None
  end.

Fixpoint skip_ws (s : string) : string :=
  match s with
  | String c r => if is_ws c then skip_ws r else s
  | EmptyString => s
  end.

(** The longest prefix of digits of [s], read in [radix]; [None] when the
    prefix is empty. *)
Fixpoint digits (radix : Z) (acc : option Z) (s : string) : option Z :=
  match s with
  | String c r =>
      match digit_val radix c with
      | Some d => digits radix (Some (radix * default 0 acc + d)) r
      | None => acc
      end
  | EmptyString => acc
  end.

(** [parseInt(s)] on a string, no radix argument: white space, a sign, an
    optional [0x] prefix, then digits. *)
Definition parseInt_string (s : string) : JValue :=
  let s1 := skip_ws s in
  let '(sign, s2) :=
    match s1 with
    | String "-" r => (-1, r)
    | String "+" r => (1, r)
    | _ => (1, s1)
    end in
  let '(radix, s3) :=
    match s2 with
    | String "0" (String "x" r) => (16, r)
    | String "0" (String "X" r) => (16, r)
    | _ => (10, s2)
    end in
  match digits radix None s3 with
  | Some n => JNum (sign * n)
  | None => JNaN
  end.

(** [parseInt(v)]: [v] is converted to a string first.  An integer prints as
    its decimal digits and reads back as itself; [null], [undefined],
    booleans, [NaN] and objects print as words without a leading digit; an
    array prints its elements separated by commas, so only the first element
    matters. *)
Fixpoint parseInt (v : JValue) : JValue :=
  match v with
  | JNum n => JNum n
  | JStr s => parseInt_string s
  | JArr (x :: _) => parseInt x
  | _ => JNaN
  end.

(** ** Errors, replies, the environment and the world *)

(** A thrown JavaScript error: [error.message] and, for an axios error that
    carries an HTTP reply, [error.response.data]. *)
Record JsError := mkError {
  message : string;
  response : option JValue;
}.

Definition Error (msg : string) : JsError := mkError msg None.

(** [error.response?.data] *)
Definition response_data (e : JsError) : JValue :=
  match response e with
  | Some d => d
  | None => JUndefined
  end.

(** [error.response?.data || error.message] *)
Definition details (e : JsError) : JValue :=
  or_else (response_data e) (JStr (message e)).

Inductive Outcome (A : Type) : Type :=
  | Ok (a : A)
  | Throw (e : JsError).
Arguments Ok {A} a.
Arguments Throw {A} e.

(** The gateway operations the handlers post to, below [BASE_URL]. *)
Inductive Endpoint :=
  | AccessToken          (* /access-token *)
  | TransactionCreate    (* /transaction/create *)
  | PaymentMethods       (* /send-money/get/payment-methods *)
  | VerifyReceiver       (* /send-money/verify-receiver *)
  | SendMoneyCreate.     (* /send-money/create *)

(** What [await axios.post(...)] does: it resolves with [response.data] on a
    2xx reply and rejects otherwise (no reply, or a reply with another HTTP
    status). *)
Inductive AxiosReply :=
  | AxResolve (data : JValue)
  | AxReject (e : JsError).

(** One outbound request: the operation, the JSON body and the bearer token
    of the [Authorization] header (none for the token request). *)
Record GatewayCall := mkCall {
  call_endpoint : Endpoint;
  call_body : JValue;
  call_bearer : option JValue;
}.

(** The Firestore calls of the source, one constructor per call site.  No
    handler loops, so a site runs at most once per request. *)
Inductive Site :=
  | PaymentAdd           (* payments.add(...)             in payment/create *)
  | WithdrawalAdd        (* withdrawals.add(...)          in withdrawal/request *)
  | ApproveGet           (* withdrawalRef.get()           in approve *)
  | ApproveUpdate        (* withdrawalRef.update approved in approve *)
  | ApproveReget         (* withdrawalRef.get() afterwards in approve *)
  | ApproveMarkFailed    (* update failed                 in approve's catch *)
  | RejectGet            (* withdrawalRef.get()           in reject *)
  | RejectUpdate         (* withdrawalRef.update rejected in reject *)
  | RejectReget          (* withdrawalRef.get() afterwards in reject *)
  | StatusGet            (* doc(id).get()                 in withdrawal/status *)
  | StatsAll             (* withdrawalsRef.get()          in stats *)
  | StatsPending         (* where status == pending       in stats *)
  | StatsApproved        (* where status == approved      in stats *)
  | StatsRejected.       (* where status == rejected      in stats *)

(** Everything one request meets that the process does not decide. *)
Record Env := mkEnv {
  CLIENT_ID : JValue;                      (* process.env.EZIPAY_CLIENT_ID *)
  CLIENT_SECRET : JValue;                  (* process.env.EZIPAY_CLIENT_SECRET *)
  APP_URL : option string;                 (* process.env.APP_URL *)
  gateway : Endpoint -> AxiosReply;        (* the gateway's reply *)
  latency : Endpoint -> Z;                 (* ms spent awaiting that reply *)
  store_fault : Site -> option string;     (* a Firestore call that rejects *)
  auto_id : string;                        (* the id Firestore generates *)
  toISOString : Z -> string;               (* Date.prototype.toISOString *)
  JSON_stringify : JValue -> string;       (* JSON.stringify *)
}.

Inductive Coll := Withdrawals | Payments.

(** The state that outlives a request, and what the process emitted. *)
Record World := mkWorld {
  withdrawals : gmap string Doc;           (* db.collection('withdrawals') *)
  payments : gmap string Doc;              (* db.collection('payments') *)
  accessToken : JValue;                    (* let accessToken = null *)
  tokenExpiry : option Z;                  (* let tokenExpiry = null *)
  clock : Z;                               (* Date.now() *)
  outbox : list GatewayCall;               (* requests sent to the gateway *)
  console : list (string * JValue);        (* console.error lines *)
}.

Definition coll (c : Coll) (w : World) : gmap string Doc :=
  match c with
  | Withdrawals => withdrawals w
  | Payments => payments w
  end.

Definition set_coll (c : Coll) (m : gmap string Doc) (w : World) : World :=
  match c with
  | Withdrawals =>
      mkWorld m (payments w) (accessToken w) (tokenExpiry w) (clock w)
              (outbox w) (console w)
  | Payments =>
      mkWorld (withdrawals w) m (accessToken w) (tokenExpiry w) (clock w)
              (outbox w) (console w)
  end.

Definition set_token (tok : JValue) (w : World) : World :=
  mkWorld (withdrawals w) (payments w) tok (tokenExpiry w) (clock w)
          (outbox w) (console w).

Definition set_expiry (e : Z) (w : World) : World :=
  mkWorld (withdrawals w) (payments w) (accessToken w) (Some e) (clock w)
          (outbox w) (console w).

Definition send (c : GatewayCall) (dt : Z) (w : World) : World :=
  mkWorld (withdrawals w) (payments w) (accessToken w) (tokenExpiry w)
          (clock w + dt) (outbox w ++ [c]) (console w).

Definition log (label : string) (v : JValue) (w : World) : World :=
  mkWorld (withdrawals w) (payments w) (accessToken w) (tokenExpiry w)
          (clock w) (outbox w) (console w ++ [(label, v)]).

(** ** The monad of a handler *)

Definition M (A : Type) : Type := Env -> World -> Outcome A * World.

Definition ret {A} (a : A) : M A := fun _ w => (Ok a, w).

Definition bind {A B} (m : M A) (k : A -> M B) : M B :=
  fun env w =>
    match m env w with
    | (Ok a, w') => k a env w'
    | (Throw e, w') => (Throw e, w')
    end.

Definition throw {A} (e : JsError) : M A := fun _ w => (Throw e, w).

(** [try { m } catch (error) { h error }]: what [m] did before it threw
    stays done. *)
Definition try_catch {A} (m : M A) (h : JsError -> M A) : M A :=
  fun env w =>
    match m env w with
    | (Ok a, w') => (Ok a, w')
    | (Throw e, w') => h e env w'
    end.

Notation "'let!' x ':=' m 'in' k" := (bind m (fun x => k))
  (at level 10, x name, m at level 100, k at level 200,
   format "'[v' 'let!'  x  ':='  m  'in' '/' k ']'").
Notation "'do!' m 'in' k" := (bind m (fun _ => k))
  (at level 10, m at level 100, k at level 200,
   format "'[v' 'do!'  m  'in' '/' k ']'").

Definition ask : M Env := fun env w => (Ok env, w).
Definition get_world : M World := fun _ w => (Ok w, w).
Definition modify (f : World -> World) : M unit := fun _ w => (Ok tt, f w).

Definition Date_now : M Z := fun _ w => (Ok (clock w), w).

Definition console_error (label : string) (v : JValue) : M unit :=
  modify (log label v).

(** [v.k] where [v] may be anything: reading a property of [null] or
    [undefined] throws a TypeError. *)
Definition prop (v : JValue) (k : string) : M JValue :=
  match v with
  | JUndefined =>
      throw (Error ("Cannot read properties of undefined (reading '" +:+ k +:+ "')"))
  | JNull =>
      throw (Error ("Cannot read properties of null (reading '" +:+ k +:+ "')"))
  | _ => ret (opt_prop v k)
  end.

(** [(await axios.post(url, body, {headers})).data] *)
Definition axios_post (ep : Endpoint) (body : JValue) (bearer : option JValue)
  : M JValue :=
  fun env w =>
    let w' := send (mkCall ep body bearer) (latency env ep) w in
    match gateway env ep with
    | AxResolve data => (Ok data, w')
    | AxReject e => (Throw e, w')
    end.

(** ** Firestore *)

(** A document literal handed to [add] or [update] may not hold [undefined]:
    the client library refuses it before anything is sent.  (Only the
    literal's own values are looked at: what is nested in them is parsed
    JSON, which has no [undefined].) *)
Definition has_undefined (l : list (string * JValue)) : bool :=
  existsb (fun kv => match kv.2 with JUndefined => true | _ => false end) l.

(** A document literal of the source may hold
    [FieldValue.serverTimestamp()], which the server replaces by its time at
    the write: such a literal is a function of that time. *)
Definition Literal : Type := Z -> list (string * JValue).

(** A Firestore call at site [s]: it rejects when the environment says so. *)
Definition fs_call {A} (s : Site) (k : M A) : M A :=
  fun env w =>
    match store_fault env s with
    | Some msg => (Throw (Error msg), w)
    | None => k env w
    end.

(** [collection(c).doc(id).get()]: [None] when [!doc.exists], otherwise
    [doc.data()].  [id] is one path segment. *)
Definition fs_get (s : Site) (c : Coll) (id : string) : M (option Doc) :=
  fs_call s (fun _ w => (Ok (coll c w !! id), w)).

(** [collection(c).add(data)]: creates the document under a generated id
    (a create, which fails on an id already in use) and gives the id. *)
Definition fs_add (s : Site) (c : Coll) (data : Literal) : M string :=
  let! w := get_world in
  if has_undefined (data (clock w))
  then throw (Error "Cannot use undefined as a Firestore value")
  else fs_call s (fun env w =>
    let id := auto_id env in
    match coll c w !! id with
    | Some _ => (Throw (Error "ALREADY_EXISTS: Document already exists"), w)
    | None =>
        (Ok id, set_coll c (<[id := assign ∅ (data (clock w))]> (coll c w)) w)
    end).

(** [collection(c).doc(id).update(data)]: writes the given fields over the
    stored document and leaves its other fields; fails when there is no such
    document. *)
Definition fs_update (s : Site) (c : Coll) (id : string) (data : Literal)
  : M unit :=
  let! w := get_world in
  if has_undefined (data (clock w))
  then throw (Error "Cannot use undefined as a Firestore value")
  else fs_call s (fun env w =>
    match coll c w !! id with
    | None => (Throw (Error "NOT_FOUND: No document to update"), w)
    | Some d =>
        (Ok tt, set_coll c (<[id := assign d (data (clock w))]> (coll c w)) w)
    end).

(** [collection(c).get()]: the snapshot's [docs]. *)
Definition fs_all (s : Site) (c : Coll) : M (list (string * Doc)) :=
  fs_call s (fun _ w => (Ok (map_to_list (coll c w)), w)).

(** [collection(c).where(k, '==', lit).get()] *)
Definition fs_where (s : Site) (c : Coll) (k lit : string)
  : M (list (string * Doc)) :=
  fs_call s (fun _ w =>
    (Ok (List.filter (fun x => str_is (field x.2 k) lit) (map_to_list (coll c w))), w)).

(** [snapshot.size], [array.length] *)
Definition size_of {A} (l : list A) : JValue := JNum (Z.of_nat (List.length l)).

(** ** HTTP replies *)

Record Response := mkResponse {
  code : Z;
  body : JValue;
}.

(** [res.json(v)] *)
Definition res_json (v : JValue) : Response := mkResponse 200 v.
(** [res.status(c).json(v)] *)
Definition res_status_json (c : Z) (v : JValue) : Response := mkResponse c v.

(** ** The token cache *)

Definition TWO_HOURS : Z := 2 * 60 * 60 * 1000.

(** [accessToken && tokenExpiry && Date.now() < tokenExpiry] *)
Definition cache_valid (w : World) (now : Z) : bool :=
  truthy (accessToken w) &&
  match tokenExpiry w with
  | Some e => negb (e =? 0) && (now <? e)
  | None => false
  end.

Definition getAccessToken : M JValue :=
  try_catch
    (let! w := get_world in
     let! now := Date_now in
     if cache_valid w now then ret (accessToken w)
     else
       let! env := ask in
       let! data := axios_post AccessToken
                      (js_obj [("client_id", CLIENT_ID env);
                               ("client_secret", CLIENT_SECRET env)]) None in
       let! status := prop data "status" in
       if str_is status "success" then
         let! inner := prop data "data" in
         let! token := prop inner "access_token" in
         do! modify (set_token token) in
         let! now' := Date_now in
         do! modify (set_expiry (now' + TWO_HOURS)) in
         let! w' := get_world in
         ret (accessToken w')
       else throw (Error "Failed to get access token"))
    (fun error =>
       do! console_error "Error getting access token:" (details error) in
       throw error).

(** ** The routes *)

Definition err (msg : string) : JValue := js_obj [("error", JStr msg)].

Definition err_details (msg : string) (e : JsError) : JValue :=
  js_obj [("error", JStr msg); ("details", details e)].

(** [process.env.APP_URL || 'https://your-app.railway.app'] *)
Definition app_url (env : Env) : string :=
  match APP_URL env with
  | Some s => if String.eqb s "" then "https://your-app.railway.app" else s
  | None => "https://your-app.railway.app"
  end.

(** POST /api/payment/create *)
Definition payment_create (req_body : Doc) : M Response :=
  try_catch
    (let amount := field req_body "amount" in
     let currency := field req_body "currency" in
     let metadata := field req_body "metadata" in
     let userId := field req_body "userId" in
     if negb (truthy amount) || negb (truthy currency)
     then ret (res_status_json 400 (err "Amount and currency are required"))
     else
       let! token := getAccessToken in
       let! env := ask in
       let! data := axios_post TransactionCreate
         (js_obj [("amount", parseInt amount);
                  ("currency", currency);
                  ("successUrl", JStr (app_url env +:+ "/payment/success"));
                  ("cancelUrl", JStr (app_url env +:+ "/payment/cancel"));
                  ("metadata", if truthy metadata
                               then JStr (JSON_stringify env metadata)
                               else JNull)])
         (Some token) in
       let! status := prop data "status" in
       do! (if str_is status "success" then
              let! inner := prop data "data" in
              let! grant_id := prop inner "grant_id" in
              let! tok := prop inner "token" in
              do! fs_add PaymentAdd Payments (fun serverTimestamp =>
                    [("grant_id", grant_id);
                     ("token", tok);
                     ("amount", parseInt amount);
                     ("currency", currency);
                     ("userId", or_else userId JNull);
                     ("metadata", or_else metadata JNull);
                     ("status", JStr "pending");
                     ("created_at", JTime serverTimestamp)]) in
              ret tt
            else ret tt) in
       ret (res_json data))
    (fun error =>
       do! console_error "Error creating payment:" (details error) in
       ret (res_status_json 500 (err_details "Failed to create payment" error))).

(** POST /api/payment-methods *)
Definition payment_methods (req_body : Doc) : M Response :=
  try_catch
    (let currency := field req_body "currency" in
     if negb (truthy currency)
     then ret (res_status_json 400 (err "Currency is required"))
     else
       let! token := getAccessToken in
       let! data := axios_post PaymentMethods
                      (js_obj [("currency", currency)]) (Some token) in
       ret (res_json data))
    (fun error =>
       do! console_error "Error getting payment methods:" (details error) in
       ret (res_status_json 500 (err_details "Failed to get payment methods" error))).

(** POST /api/verify-receiver *)
Definition verify_receiver (req_body : Doc) : M Response :=
  try_catch
    (let email_or_phone := field req_body "email_or_phone" in
     if negb (truthy email_or_phone)
     then ret (res_status_json 400 (err "Email or phone is required"))
     else
       let! token := getAccessToken in
       let! data := axios_post VerifyReceiver
                      (js_obj [("email_or_phone", email_or_phone)]) (Some token) in
       ret (res_json data))
    (fun error =>
       do! console_error "Error verifying receiver:" (details error) in
       ret (res_status_json 500 (err_details "Failed to verify receiver" error))).

(** POST /api/withdrawal/request *)
Definition withdrawal_request (req_body : Doc) : M Response :=
  try_catch
    (let email_or_phone := field req_body "email_or_phone" in
     let currency := field req_body "currency" in
     let amount := field req_body "amount" in
     let payment_method_id := field req_body "payment_method_id" in
     let moncash_account_number := field req_body "moncash_account_number" in
     let userId := field req_body "userId" in
     let userEmail := field req_body "userEmail" in
     if negb (truthy email_or_phone) || negb (truthy currency)
        || negb (truthy amount) || negb (truthy payment_method_id)
     then ret (res_status_json 400 (err "Missing required fields"))
     else
       let! token := getAccessToken in
       let! verify := axios_post VerifyReceiver
                        (js_obj [("email_or_phone", email_or_phone)]) (Some token) in
       let! status := prop verify "status" in
       if negb (str_is status "success")
       then ret (res_status_json 400 (err "Invalid receiver"))
       else
         let! receiver_info := prop verify "data" in
         let! id := fs_add WithdrawalAdd Withdrawals (fun serverTimestamp =>
           [("email_or_phone", email_or_phone);
            ("currency", currency);
            ("amount", parseInt amount);
            ("payment_method_id", parseInt payment_method_id);
            ("moncash_account_number", or_else moncash_account_number JNull);
            ("userId", or_else userId JNull);
            ("userEmail", or_else userEmail JNull);
            ("receiver_info", receiver_info);
            ("status", JStr "pending");
            ("created_at", JTime serverTimestamp);
            ("processed_at", JNull);
            ("processed_by", JNull)]) in
         ret (res_json (js_obj
           [("status", JStr "success");
            ("message", JStr "Withdrawal request submitted. Waiting for admin approval.");
            ("data", js_obj [("withdrawal_id", JStr id);
                             ("status", JStr "pending")])])))
    (fun error =>
       do! console_error "Error creating withdrawal request:" (details error) in
       ret (res_status_json 500
              (err_details "Failed to create withdrawal request" error))).

(** [v?.toDate().toISOString()] *)
Definition render_time (v : JValue) : M JValue :=
  match v with
  | JUndefined | JNull => ret JUndefined
  | JTime t => let! env := ask in ret (JStr (toISOString env t))
  | _ => throw (Error "toDate is not a function")
  end.

(** [{ id: doc.id, ...doc.data(), created_at: ..., processed_at: ... }]
    for a snapshot [doc] just read; [doc.data()] is [undefined] when the
    document does not exist. *)
Definition rendered (id : string) (snapshot : option Doc) : M JValue :=
  match snapshot with
  | None =>
      throw (Error "Cannot read properties of undefined (reading 'created_at')")
  | Some d =>
      let! created_at := render_time (field d "created_at") in
      let! processed_at := render_time (field d "processed_at") in
      ret (JObj (assign (d ∪ {["id" := JStr id]})
                        [("created_at", created_at);
                         ("processed_at", processed_at)]))
  end.

(** POST /api/admin/withdrawal/approve/:id, the [try] block. *)
Definition approve_try (id : string) (req_body : Doc) : M Response :=
  let adminId := field req_body "adminId" in
  let! withdrawalDoc := fs_get ApproveGet Withdrawals id in
  match withdrawalDoc with
  | None => ret (res_status_json 404 (err "Withdrawal not found"))
  | Some withdrawal =>
      if negb (str_is (field withdrawal "status") "pending")
      then ret (res_status_json 400 (err "Withdrawal already processed"))
      else
        let! token := getAccessToken in
        let requestData :=
          ([("email_or_phone", field withdrawal "email_or_phone");
            ("currency", field withdrawal "currency");
            ("amount", field withdrawal "amount");
            ("payment_method_id", field withdrawal "payment_method_id")]
           ++ (if truthy (field withdrawal "moncash_account_number")
               then [("moncash_account_number",
                      field withdrawal "moncash_account_number")]
               else []))%list in
        let! data := axios_post SendMoneyCreate (js_obj requestData)
                       (Some token) in
        do! fs_update ApproveUpdate Withdrawals id (fun serverTimestamp =>
              [("status", JStr "approved");
               ("processed_at", JTime serverTimestamp);
               ("processed_by", or_else adminId (JStr "admin"));
               ("ezipay_response", data)]) in
        let! updatedDoc := fs_get ApproveReget Withdrawals id in
        let! updatedData := rendered id updatedDoc in
        ret (res_json (js_obj
          [("status", JStr "success");
           ("message", JStr "Withdrawal approved and processed");
           ("data", updatedData)]))
  end.

(** ... and its [catch (error)] block, which marks the request failed. *)
Definition approve_catch (id : string) (error : JsError) : M Response :=
  do! console_error "Error approving withdrawal:" (details error) in
  do! try_catch
        (fs_update ApproveMarkFailed Withdrawals id (fun serverTimestamp =>
           [("status", JStr "failed");
            ("processed_at", JTime serverTimestamp);
            ("error_message",
             or_else (opt_prop (response_data error) "message")
                     (JStr (message error)))]))
        (fun updateError =>
           console_error "Error updating failed status:"
                         (JStr (message updateError))) in
  ret (res_status_json 500 (err_details "Failed to process withdrawal" error)).

Definition approve (id : string) (req_body : Doc) : M Response :=
  try_catch (approve_try id req_body) (approve_catch id).

(** POST /api/admin/withdrawal/reject/:id *)
Definition reject (id : string) (req_body : Doc) : M Response :=
  try_catch
    (let reason := field req_body "reason" in
     let adminId := field req_body "adminId" in
     let! withdrawalDoc := fs_get RejectGet Withdrawals id in
     match withdrawalDoc with
     | None => ret (res_status_json 404 (err "Withdrawal not found"))
     | Some withdrawal =>
         if negb (str_is (field withdrawal "status") "pending")
         then ret (res_status_json 400 (err "Withdrawal already processed"))
         else
           do! fs_update RejectUpdate Withdrawals id (fun serverTimestamp =>
                 [("status", JStr "rejected");
                  ("processed_at", JTime serverTimestamp);
                  ("processed_by", or_else adminId (JStr "admin"));
                  ("rejection_reason", or_else reason (JStr "No reason provided"))]) in
           let! updatedDoc := fs_get RejectReget Withdrawals id in
           let! updatedData := rendered id updatedDoc in
           ret (res_json (js_obj
             [("status", JStr "success");
              ("message", JStr "Withdrawal rejected");
              ("data", updatedData)]))
     end)
    (fun error =>
       do! console_error "Error rejecting withdrawal:" (JStr (message error)) in
       ret (res_status_json 500 (err "Failed to reject withdrawal"))).

(** GET /api/withdrawal/status/:id *)
Definition withdrawal_status (id : string) : M Response :=
  try_catch
    (let! withdrawalDoc := fs_get StatusGet Withdrawals id in
     match withdrawalDoc with
     | None => ret (res_status_json 404 (err "Withdrawal not found"))
     | Some withdrawal =>
         let! created_at := render_time (field withdrawal "created_at") in
         let! processed_at := render_time (field withdrawal "processed_at") in
         ret (res_json (js_obj
           [("status", JStr "success");
            ("data", js_obj [("withdrawal_id", JStr id);
                             ("status", field withdrawal "status");
                             ("amount", field withdrawal "amount");
                             ("currency", field withdrawal "currency");
                             ("created_at", created_at);
                             ("processed_at", processed_at)])]))
     end)
    (fun error =>
       do! console_error "Error fetching withdrawal status:" (JStr (message error)) in
       ret (res_status_json 500 (err "Failed to fetch withdrawal status"))).

(** GET /api/admin/stats.  The four queries of the [Promise.all] are issued
    together and answered from the same collection; the handler goes on only
    when all four have resolved. *)
Definition stats : M Response :=
  try_catch
    (let! totalSnap := fs_all StatsAll Withdrawals in
     let! pendingSnap := fs_where StatsPending Withdrawals "status" "pending" in
     let! approvedSnap := fs_where StatsApproved Withdrawals "status" "approved" in
     let! rejectedSnap := fs_where StatsRejected Withdrawals "status" "rejected" in
     ret (res_json (js_obj
       [("status", JStr "success");
        ("data", js_obj
           [("total", size_of totalSnap);
            ("pending", size_of pendingSnap);
            ("approved", size_of approvedSnap);
            ("rejected", size_of rejectedSnap);
            ("failed", size_of
               (List.filter (fun doc => str_is (field doc.2 "status") "failed")
                            totalSnap))])])))
    (fun error =>
       do! console_error "Error fetching stats:" (JStr (message error)) in
       ret (res_status_json 500 (err "Failed to fetch statistics"))).

(** ** Vocabulary of the statements *)

Definition is_nullish (v : JValue) : bool :=
  match v with
  | JUndefined | JNull => true
  | _ => false
  end.

(** A token is cached and the current time is before its recorded expiry. *)
Definition token_cached (w : World) : Prop :=
  truthy (accessToken w) = true /\
  exists e, tokenExpiry w = Some e /\ clock w < e.

(** The request [getAccessToken] posts to the token endpoint. *)
Definition token_request (env : Env) : GatewayCall :=
  mkCall AccessToken
    (js_obj [("client_id", CLIENT_ID env); ("client_secret", CLIENT_SECRET env)])
    None.

(** The token endpoint's reply is a success response that carries [tok]:
    [{status: 'success', data: {access_token: tok, ...}}]. *)
Definition grants (r : AxiosReply) (tok : JValue) : Prop :=
  exists reply,
    r = AxResolve reply /\
    opt_prop reply "status" = JStr "success" /\
    is_nullish (opt_prop reply "data") = false /\
    tok = opt_prop (opt_prop reply "data") "access_token".

(** The four mandatory fields of a withdrawal request. *)
Definition mandatory : list string :=
  ["email_or_phone"; "currency"; "amount"; "payment_method_id"].

Definition passes_validation (req_body : Doc) : Prop :=
  forall k, k ∈ mandatory -> truthy (field req_body k) = true.

(** The receiver verification posted by [withdrawal_request]. *)
Definition verify_call (req_body : Doc) (token : JValue) : GatewayCall :=
  mkCall VerifyReceiver
    (js_obj [("email_or_phone", field req_body "email_or_phone")]) (Some token).

(** The document [withdrawal_request] adds, written at server time [now]. *)
Definition new_withdrawal (req_body : Doc) (receiver_info : JValue) (now : Z) : Doc :=
  assign ∅
    [("email_or_phone", field req_body "email_or_phone");
     ("currency", field req_body "currency");
     ("amount", parseInt (field req_body "amount"));
     ("payment_method_id", parseInt (field req_body "payment_method_id"));
     ("moncash_account_number",
      or_else (field req_body "moncash_account_number") JNull);
     ("userId", or_else (field req_body "userId") JNull);
     ("userEmail", or_else (field req_body "userEmail") JNull);
     ("receiver_info", receiver_info);
     ("status", JStr "pending");
     ("created_at", JTime now);
     ("processed_at", JNull);
     ("processed_by", JNull)].

(** The reply of a successful [withdrawal_request]. *)
Definition submitted (id : string) : Response :=
  res_json (js_obj
    [("status", JStr "success");
     ("message", JStr "Withdrawal request submitted. Waiting for admin approval.");
     ("data", js_obj [("withdrawal_id", JStr id); ("status", JStr "pending")])]).

(** *** Sample environments and worlds *)

Definition token_reply : JValue :=
  js_obj [("status", JStr "success");
          ("data", js_obj [("access_token", JStr "tok-1")])].

Definition verify_reply : JValue :=
  js_obj [("status", JStr "success");
          ("data", js_obj [("name", JStr "Ann")])].

Definition payout_reply : JValue :=
  js_obj [("status", JStr "success");
          ("data", js_obj [("transaction", JStr "tx-9")])].

Definition create_reply : JValue :=
  js_obj [("status", JStr "success");
          ("data", js_obj [("grant_id", JStr "g-1"); ("token", JStr "t-1")])].

(** Every gateway operation answers with success, nothing fails. *)
Definition gateway_up (ep : Endpoint) : AxiosReply :=
  match ep with
  | AccessToken => AxResolve token_reply
  | VerifyReceiver => AxResolve verify_reply
  | SendMoneyCreate => AxResolve payout_reply
  | TransactionCreate => AxResolve create_reply
  | PaymentMethods => AxResolve (js_obj [("status", JStr "success")])
  end.

Definition env_of (id : string) (gw : Endpoint -> AxiosReply)
    (faults : Site -> option string) : Env :=
  mkEnv (JStr "client") (JStr "secret") None gw (fun _ => 5) faults id
        (fun _ => "1970-01-01T00:00:01.005Z") (fun _ => "{}").

Definition env_with (gw : Endpoint -> AxiosReply) (faults : Site -> option string)
  : Env := env_of "wd-1" gw faults.

Definition no_fault (s : Site) : option string := None.

Definition env_up : Env := env_with gateway_up no_fault.

(** The process right after start, at time 1000. *)
Definition w_start : World := mkWorld ∅ ∅ JNull None 1000 [] [].

(** The request of the spec's scenario. *)
Definition sample_request : Doc :=
  assign ∅ [("email_or_phone", JStr "a@b.com"); ("currency", JStr "HTG");
            ("amount", JNum 500); ("payment_method_id", JNum 3)].

(** A request that asks to withdraw a negative amount. *)
Definition negative_request : Doc :=
  assign ∅ [("email_or_phone", JStr "a@b.com"); ("currency", JStr "HTG");
            ("amount", JNum (-5)); ("payment_method_id", JNum 3)].

(** A request with amount zero. *)
Definition zero_request : Doc :=
  assign ∅ [("email_or_phone", JStr "a@b.com"); ("currency", JStr "HTG");
            ("amount", JNum 0); ("payment_method_id", JNum 3)].

(** The gateway refuses the receiver: a 2xx reply whose status is not
    success. *)
Definition gateway_unknown_receiver (ep : Endpoint) : AxiosReply :=
  match ep with
  | VerifyReceiver =>
      AxResolve (js_obj [("status", JStr "error"); ("message", JStr "Unknown receiver")])
  | _ => gateway_up ep
  end.

(** The world after the token has been fetched at start. *)
Definition w_token : World :=
  set_expiry 7201005
    (set_token (JStr "tok-1") (send (token_request env_up) 5 w_start)).

(** *** Payment creation *)

(** The transaction request posted by [payment_create]. *)
Definition create_call (env : Env) (req_body : Doc) (token : JValue) : GatewayCall :=
  mkCall TransactionCreate
    (js_obj [("amount", parseInt (field req_body "amount"));
             ("currency", field req_body "currency");
             ("successUrl", JStr (app_url env +:+ "/payment/success"));
             ("cancelUrl", JStr (app_url env +:+ "/payment/cancel"));
             ("metadata", if truthy (field req_body "metadata")
                          then JStr (JSON_stringify env (field req_body "metadata"))
                          else JNull)])
    (Some token).

(** The document [payment_create] adds, written at server time [now]. *)
Definition new_payment (req_body : Doc) (inner : JValue) (now : Z) : Doc :=
  assign ∅
    [("grant_id", opt_prop inner "grant_id");
     ("token", opt_prop inner "token");
     ("amount", parseInt (field req_body "amount"));
     ("currency", field req_body "currency");
     ("userId", or_else (field req_body "userId") JNull);
     ("metadata", or_else (field req_body "metadata") JNull);
     ("status", JStr "pending");
     ("created_at", JTime now)].

Definition sample_payment : Doc :=
  assign ∅ [("amount", JNum 250); ("currency", JStr "HTG")].

(** Firestore rejects the write of the payment record. *)
Definition payments_down (s : Site) : option string :=
  match s with
  | PaymentAdd => Some "UNAVAILABLE"
  | _ => None
  end.

(** *** Approving and rejecting *)

(** The payout request [approve] posts for the stored document [d]. *)
Definition payout_call (d : Doc) (token : JValue) : GatewayCall :=
  mkCall SendMoneyCreate
    (js_obj ([("email_or_phone", field d "email_or_phone");
              ("currency", field d "currency");
              ("amount", field d "amount");
              ("payment_method_id", field d "payment_method_id")]
             ++ (if truthy (field d "moncash_account_number")
                 then [("moncash_account_number", field d "moncash_account_number")]
                 else []))%list)
    (Some token).

(** The three updates of the source, applied to the stored document [d] at
    server time [now]. *)
Definition approved (d req_body : Doc) (data : JValue) (now : Z) : Doc :=
  assign d
    [("status", JStr "approved");
     ("processed_at", JTime now);
     ("processed_by", or_else (field req_body "adminId") (JStr "admin"));
     ("ezipay_response", data)].

Definition failed (d : Doc) (cause : JsError) (now : Z) : Doc :=
  assign d
    [("status", JStr "failed");
     ("processed_at", JTime now);
     ("error_message",
      or_else (opt_prop (response_data cause) "message") (JStr (message cause)))].

Definition rejected (d req_body : Doc) (now : Z) : Doc :=
  assign d
    [("status", JStr "rejected");
     ("processed_at", JTime now);
     ("processed_by", or_else (field req_body "adminId") (JStr "admin"));
     ("rejection_reason",
      or_else (field req_body "reason") (JStr "No reason provided"))].


Definition processing_failed (cause : JsError) : Response :=
  res_status_json 500 (err_details "Failed to process withdrawal" cause).

(** The record a request shows to the caller: its fields, its id, and the
    two timestamps as ISO strings. *)
Definition shown (env : Env) (id : string) (d : Doc) (created processed : Z) : JValue :=
  JObj (assign (d ∪ {["id" := JStr id]})
          [("created_at", JStr (toISOString env created));
           ("processed_at", JStr (toISOString env processed))]).

(** The world after the spec's scenario request has been stored. *)
Definition w_pending : World := (withdrawal_request sample_request env_up w_start).2.

(** ... and after an operator approved it. *)
Definition w_approved : World := (approve "wd-1" ∅ env_up w_pending).2.

(** The record of the scenario request once approved. *)
Definition approved_sample : Doc :=
  approved (new_withdrawal sample_request (opt_prop verify_reply "data") 1010)
           ∅ payout_reply 1015.

(** Field [k] of the withdrawal stored under [id] ([undefined] when there is
    no such record or no such field). *)
Definition stored_field (w : World) (id k : string) : JValue :=
  match withdrawals w !! id with
  | Some d => field d k
  | None => JUndefined
  end.

(** Firestore rejects the first read of [approve]. *)
Definition read_down (s : Site) : option string :=
  match s with
  | ApproveGet => Some "UNAVAILABLE"
  | _ => None
  end.

(** The gateway refuses the payout with an HTTP error. *)
Definition payout_refused : JsError :=
  mkError "Request failed with status code 422"
          (Some (js_obj [("status", JStr "error");
                         ("message", JStr "Insufficient balance")])).

Definition gateway_payout_down (ep : Endpoint) : AxiosReply :=
  match ep with
  | SendMoneyCreate => AxReject payout_refused
  | _ => gateway_up ep
  end.

(** Firestore rejects the update to approved. *)
Definition update_down (s : Site) : option string :=
  match s with
  | ApproveUpdate => Some "UNAVAILABLE"
  | _ => None
  end.

(** An operator's request body. *)
Definition by_operator : Doc := assign ∅ [("adminId", JStr "op-7")].

(** The reply of a successful [reject]. *)
Definition rejection_done (data : JValue) : Response :=
  res_json (js_obj [("status", JStr "success");
                    ("message", JStr "Withdrawal rejected");
                    ("data", data)]).

(** An operator's rejection, with a reason. *)
Definition rejection_body : Doc :=
  assign ∅ [("adminId", JStr "op-7"); ("reason", JStr "Duplicate request")].

(** *** Requests, reachable worlds and the record invariant *)

(** The requests the embedded routes serve. *)
Inductive Request :=
  | PaymentCreate (req_body : Doc)
  | PaymentMethodsList (req_body : Doc)
  | VerifyReceiverCheck (req_body : Doc)
  | WithdrawalRequest (req_body : Doc)
  | WithdrawalApprove (id : string) (req_body : Doc)
  | WithdrawalReject (id : string) (req_body : Doc)
  | WithdrawalStatus (id : string)
  | AdminStats.

Definition handle (r : Request) : M Response :=
  match r with
  | PaymentCreate b => payment_create b
  | PaymentMethodsList b => payment_methods b
  | VerifyReceiverCheck b => verify_receiver b
  | WithdrawalRequest b => withdrawal_request b
  | WithdrawalApprove id b => approve id b
  | WithdrawalReject id b => reject id b
  | WithdrawalStatus id => withdrawal_status id
  | AdminStats => stats
  end.

(** Time passes between requests. *)
Definition advance (dt : Z) (w : World) : World :=
  mkWorld (withdrawals w) (payments w) (accessToken w) (tokenExpiry w)
          (clock w + dt) (outbox w) (console w).

(** The worlds the process can be in: it starts with empty collections and
    an empty cache, and serves requests one after the other, each in some
    environment. *)
Inductive reachable : World -> Prop :=
  | reach_start now : reachable (mkWorld ∅ ∅ JNull None now [] [])
  | reach_request w r env : reachable w -> reachable (handle r env w).2
  | reach_wait w dt : reachable w -> 0 <= dt -> reachable (advance dt w).

Definition valid_status (v : JValue) : Prop :=
  v = JStr "pending" \/ v = JStr "approved" \/ v = JStr "rejected"
  \/ v = JStr "failed".

(** What holds of every stored withdrawal record: its status is one of the
    four; while pending it has no processing data; once approved or rejected
    it names who processed it; and it carries its creation time. *)
Definition record_ok (d : Doc) : Prop :=
  valid_status (field d "status")
  /\ (field d "status" = JStr "pending" ->
      field d "processed_by" = JNull /\ field d "processed_at" = JNull
      /\ d !! "ezipay_response" = None /\ d !! "error_message" = None
      /\ d !! "rejection_reason" = None)
  /\ (field d "status" = JStr "approved" \/ field d "status" = JStr "rejected" ->
      truthy (field d "processed_by") = true
      /\ exists t, field d "processed_at" = JTime t)
  /\ (exists t, field d "created_at" = JTime t).

Definition records_ok (w : World) : Prop :=
  forall id d, withdrawals w !! id = Some d -> record_ok d.

(** A computation keeps a property of the world, however it ends. *)
Definition preserves {A} (P : World -> Prop) (m : M A) : Prop :=
  forall env w r w', m env w = (r, w') -> P w -> P w'.

(** The number of documents of a snapshot with a given status. *)
Definition count_status (s : string) (docs : list (string * Doc)) : Z :=
  Z.of_nat (List.length
    (List.filter (fun doc => str_is (field doc.2 "status") s) docs)).

(** The reply of [stats] with the five counts. *)
Definition stats_reply (total pending approved rejected failed : Z) : Response :=
  res_json (js_obj
    [("status", JStr "success");
     ("data", js_obj [("total", JNum total);
                      ("pending", JNum pending);
                      ("approved", JNum approved);
                      ("rejected", JNum rejected);
                      ("failed", JNum failed)])]).

(** The three runs looked at below: the negative request at start; a second
    Approve of the approved scenario request while Firestore rejects the
    first read; Approve of the pending scenario request by operator op-7
    while the gateway refuses the payout. *)
Definition negative_run : Outcome Response * World :=
  withdrawal_request negative_request env_up w_start.


Definition refused_run : Outcome Response * World :=
  approve "wd-1" by_operator (env_with gateway_payout_down no_fault) w_pending.

(** The spec's statistics scenario: five requests are stored; the third is
    approved, the fourth rejected, and the payout of the fifth is refused by
    the gateway. *)
Definition serve (r : Request) (env : Env) (w : World) : World := (handle r env w).2.

Definition w_five : World :=
  serve (WithdrawalApprove "wd-5" by_operator) (env_with gateway_payout_down no_fault)
  (serve (WithdrawalReject "wd-4" rejection_body) env_up
  (serve (WithdrawalApprove "wd-3" by_operator) env_up
  (serve (WithdrawalRequest sample_request) (env_of "wd-5" gateway_up no_fault)
  (serve (WithdrawalRequest sample_request) (env_of "wd-4" gateway_up no_fault)
  (serve (WithdrawalRequest sample_request) (env_of "wd-3" gateway_up no_fault)
  (serve (WithdrawalRequest sample_request) (env_of "wd-2" gateway_up no_fault)
  (serve (WithdrawalRequest sample_request) (env_of "wd-1" gateway_up no_fault)
         w_start))))))).

(** ** Vocabulary of the further properties *)

(** The reply of a successful [approve]. *)
Definition approval_done (data : JValue) : Response :=
  res_json (js_obj [("status", JStr "success");
                    ("message", JStr "Withdrawal approved and processed");
                    ("data", data)]).

Definition not_found : Response :=
  res_status_json 404 (err "Withdrawal not found").

(** The reply of [withdrawal_status] for the stored document [d], with its
    two timestamps as rendered. *)
Definition status_shown (id : string) (d : Doc) (created_at processed_at : JValue)
  : Response :=
  res_json (js_obj
    [("status", JStr "success");
     ("data", js_obj [("withdrawal_id", JStr id);
                      ("status", field d "status");
                      ("amount", field d "amount");
                      ("currency", field d "currency");
                      ("created_at", created_at);
                      ("processed_at", processed_at)])]).

(** The keys a route may write on a stored withdrawal. *)
Definition processing_keys : list string :=
  ["status"; "processed_at"; "processed_by"; "ezipay_response";
   "error_message"; "rejection_reason"].

(** The moves of a record's status that the routes make: none, to failed
    from anywhere, and from pending to approved or rejected. *)
Definition moves (before after : JValue) : Prop :=
  after = before \/ after = JStr "failed"
  \/ (before = JStr "pending"
      /\ (after = JStr "approved" \/ after = JStr "rejected")).

(** A 2xx payout reply whose body reports an error. *)
Definition gateway_payout_soft_error (ep : Endpoint) : AxiosReply :=
  match ep with
  | SendMoneyCreate =>
      AxResolve (js_obj [("status", JStr "error");
                         ("message", JStr "Insufficient balance")])
  | _ => gateway_up ep
  end.

(** The token endpoint is down. *)
Definition token_refused : JsError :=
  mkError "Request failed with status code 401"
          (Some (js_obj [("status", JStr "error");
                         ("message", JStr "Invalid client")])).

Definition gateway_token_down (ep : Endpoint) : AxiosReply :=
  match ep with
  | AccessToken => AxReject token_refused
  | _ => gateway_up ep
  end.



(** [w'] is what [w] has become after any number of requests, each served
    in some environment, with time passing in between. *)
Inductive evolves (w : World) : World -> Prop :=
  | evolves_now : evolves w w
  | evolves_request w' r env : evolves w w' -> evolves w (handle r env w').2
  | evolves_wait w' dt : evolves w w' -> 0 <= dt -> evolves w (advance dt w').

(** [d'] holds the same request data as [d]: only the processing keys may
    differ. *)
Definition same_request_data (d d' : Doc) : Prop :=
  forall k, k ∉ processing_keys -> d' !! k = d !! k.

(** A property of the withdrawals collection, as a property of the world. *)
Definition of_withdrawals (Q : gmap string Doc -> Prop) (w : World) : Prop :=
  Q (withdrawals w).

(** The documents of [m0] are all still in [m], each related by [R] to what
    it was. *)
Definition kept (R : Doc -> Doc -> Prop) (m0 m : gmap string Doc) : Prop :=
  forall id d0, m0 !! id = Some d0 -> exists d, m !! id = Some d /\ R d0 d.

(** The gateway requests one Approve of [id] may add to the outbox of [w]:
    none; or, for a stored pending record, the token request, the payout
    request for that record, or both in this order. *)
Definition payout_traffic (env : Env) (w : World) (id : string)
    (calls : list GatewayCall) : Prop :=
  calls = [] \/
  exists d token,
    withdrawals w !! id = Some d /\ field d "status" = JStr "pending" /\
    (calls = [token_request env] \/ calls = [payout_call d token]
     \/ calls = [token_request env; payout_call d token]).

(** One route changed the stored withdrawals from [m] to [m'] by rewriting
    at most the record under [id], its status moving as [moves] allows. *)
Definition rewrote (id : string) (m m' : gmap string Doc) : Prop :=
  m' = m \/
  exists d d', m !! id = Some d /\ m' = <[id := d']> m
               /\ moves (field d "status") (field d' "status").



(** The payment-methods request posted by [payment_methods]. *)
Definition methods_call (req_body : Doc) (token : JValue) : GatewayCall :=
  mkCall PaymentMethods (js_obj [("currency", field req_body "currency")])
         (Some token).

(** The gateway answers the transaction request with a 2xx reply that
    reports an error. *)
Definition gateway_create_soft_error (ep : Endpoint) : AxiosReply :=
  match ep with
  | TransactionCreate =>
      AxResolve (js_obj [("status", JStr "error");
                         ("message", JStr "Currency not supported")])
  | _ => gateway_up ep
  end.

(** A computation that ends normally ends with a value that satisfies [Q]. *)
Definition ends_with {A} (Q : A -> Prop) (m : M A) : Prop :=
  forall env w r w', m env w = (r, w') -> forall a, r = Ok a -> Q a.

(** A computation that never throws. *)
Definition never_throws {A} (m : M A) : Prop :=
  forall env w, exists a w', m env w = (Ok a, w').

(** The HTTP status codes the routes answer with. *)
Definition known_code (resp : Response) : Prop :=
  code resp = 200 \/ code resp = 400 \/ code resp = 404 \/ code resp = 500.

(** A gateway that grants an empty token. *)
Definition gateway_empty_token (ep : Endpoint) : AxiosReply :=
  match ep with
  | AccessToken =>
      AxResolve (js_obj [("status", JStr "success");
                         ("data", js_obj [("access_token", JStr "")])])
  | _ => gateway_up ep
  end.

(** * Properties *)

(** ** Basic facts *)

Lemma prop_ok v k : is_nullish v = false -> prop v k = ret (opt_prop v k).
Proof. by destruct v. Qed.

Lemma prop_nullish v k : is_nullish v = true -> exists e, prop v k = throw e.
Proof. destruct v; try done; eexists; reflexivity. Qed.

Lemma opt_prop_nullish v k : is_nullish v = true -> opt_prop v k = JUndefined.
Proof. by destruct v. Qed.

Lemma str_is_true v s : str_is v s = true <-> v = JStr s.
Proof.
  destruct v; simpl; try (split; [done|discriminate]).
  rewrite String.eqb_eq. split; [by intros -> | by intros [= ->]].
Qed.

Lemma truthy_defined v : truthy v = true -> v <> JUndefined.
Proof. by intros H ->. Qed.

Lemma or_else_defined a b : b <> JUndefined -> or_else a b <> JUndefined.
Proof.
  unfold or_else. destruct (truthy a) eqn:E; [|done].
  intros _. by apply truthy_defined.
Qed.

Lemma or_else_truthy a b : truthy b = true -> truthy (or_else a b) = true.
Proof. unfold or_else. by destruct (truthy a) eqn:E. Qed.

Lemma parseInt_string_number s :
  parseInt_string s = JNaN \/ exists n, parseInt_string s = JNum n.
Proof.
  unfold parseInt_string.
  destruct (match skip_ws s with
            | String "-" r => (-1, r)
            | String "+" r => (1, r)
            | _ => (1, skip_ws s)
            end) as [sign s2].
  destruct (match s2 with
            | String "0" (String "x" r) => (16, r)
            | String "0" (String "X" r) => (16, r)
            | _ => (10, s2)
            end) as [radix s3].
  destruct (digits radix None s3); eauto.
Qed.

Lemma parseInt_number : forall v, parseInt v = JNaN \/ exists n, parseInt v = JNum n.
Proof.
  fix IH 1. intros [ | | b | n | | s | t | xs | o ]; simpl; eauto.
  - apply parseInt_string_number.
  - destruct xs as [|x xs]; [by left | apply IH].
Qed.

Lemma parseInt_defined v : parseInt v <> JUndefined.
Proof. destruct (parseInt_number v) as [-> | [n ->]]; done. Qed.

Lemma has_undefined_false l :
  Forall (fun kv => kv.2 <> JUndefined) l -> has_undefined l = false.
Proof.
  induction 1 as [|[k v] l Hv _ IH]; [done|]. simpl in *.
  rewrite IH. by destruct v.
Qed.

Create HintDb js.
#[local] Hint Resolve truthy_defined or_else_defined parseInt_defined : js.

(** Closed equations between concrete values are settled by evaluation. *)
Ltac by_vm :=
  match goal with
  | |- ?x = ?y => vm_cast_no_check (@eq_refl _ y)
  end.

Ltac no_undefined :=
  apply has_undefined_false; repeat constructor; simpl; auto with js; done.

(** [cache_valid] is the condition [token_cached], from the epoch on. *)
Lemma cache_valid_spec w :
  0 <= clock w -> cache_valid w (clock w) = true <-> token_cached w.
Proof.
  intros Hc. unfold cache_valid, token_cached. split.
  - intros H. apply andb_true_iff in H as [H1 H2]. split; [done|].
    destruct (tokenExpiry w) as [e|]; [|done].
    apply andb_true_iff in H2 as [_ H2]. exists e; split; [done | lia].
  - intros [H1 (e & -> & He)]. rewrite H1. simpl.
    apply andb_true_iff; split; [|lia]. apply negb_true_iff. lia.
Qed.

(** ** The token cache *)

(** C7. [getAccessToken] caches the gateway token.  From the epoch on: when a
    token is cached and the time is before its expiry, the cached token is
    returned and nothing changes (no request, no cache write); otherwise the
    token endpoint is called once, and a success response stores the new
    token, sets the expiry to the time of the assignment plus two hours and
    returns the token, while any other outcome (a reply that is not a success
    response, or the request failing) throws, with the cached token and the
    expiry as they were; a failed request's own error is what is thrown. *)
Theorem getAccessToken_contract (env : Env) (w : World) :
  0 <= clock w ->
  (token_cached w -> getAccessToken env w = (Ok (accessToken w), w))
  /\ (~ token_cached w ->
      let sent := send (token_request env) (latency env AccessToken) w in
      (forall tok, grants (gateway env AccessToken) tok ->
         getAccessToken env w =
           (Ok tok, set_expiry (clock sent + 7200000) (set_token tok sent)))
      /\ ((forall tok, ~ grants (gateway env AccessToken) tok) ->
          exists e w', getAccessToken env w = (Throw e, w')
            /\ accessToken w' = accessToken w
            /\ tokenExpiry w' = tokenExpiry w
            /\ outbox w' = outbox sent
            /\ (forall e0, gateway env AccessToken = AxReject e0 -> e = e0))).
Proof.
  intros Hc. pose proof (cache_valid_spec w Hc) as Hv. split.
  - intros Hin. apply Hv in Hin.
    unfold getAccessToken, try_catch, bind, get_world, Date_now. by rewrite Hin.
  - intros Hout. assert (cache_valid w (clock w) = false) as Hf.
    { destruct (cache_valid w (clock w)); [|done]. exfalso. by apply Hout, Hv. }
    split.
    + intros tok (reply & Hg & Hs & Hn & ->).
      unfold getAccessToken, try_catch, bind, get_world, Date_now, ask, axios_post.
      rewrite Hf. fold (token_request env). rewrite Hg.
      assert (is_nullish reply = false) as Hb by (by destruct reply).
      rewrite (prop_ok _ _ Hb), Hs. simpl.
      rewrite (prop_ok _ _ Hb). simpl. rewrite (prop_ok _ _ Hn). reflexivity.
    + intros Hng.
      unfold getAccessToken, try_catch, bind, get_world, Date_now, ask, axios_post.
      rewrite Hf. fold (token_request env).
      destruct (gateway env AccessToken) as [reply|e0] eqn:Hg.
      * destruct (is_nullish reply) eqn:Hb.
        { destruct (prop_nullish reply "status" Hb) as [e He]. rewrite He. simpl.
          do 2 eexists. by repeat split. }
        rewrite (prop_ok _ _ Hb). simpl.
        destruct (str_is (opt_prop reply "status") "success") eqn:Hs.
        { apply str_is_true in Hs. rewrite (prop_ok _ _ Hb). simpl.
          destruct (is_nullish (opt_prop reply "data")) eqn:Hn.
          - destruct (prop_nullish _ "access_token" Hn) as [e He]. rewrite He. simpl.
            do 2 eexists. by repeat split.
          - exfalso. eapply Hng. exists reply. eauto. }
        simpl. do 2 eexists. by repeat split.
      * simpl. do 2 eexists. repeat split. by intros ? [= ->].
Qed.

(** At start nothing is cached: the first call fetches ["tok-1"] at time
    1005 and records the expiry 7201005; the next call, at any time before
    that, returns it from the cache. *)
Lemma getAccessToken_contract_witness :
  let w1 := set_expiry 7201005
              (set_token (JStr "tok-1") (send (token_request env_up) 5 w_start)) in
  0 <= clock w_start
  /\ getAccessToken env_up w_start = (Ok (JStr "tok-1"), w1)
  /\ getAccessToken env_up w1 = (Ok (JStr "tok-1"), w1).
Proof.
  intros w1.
  assert (0 <= clock w_start) as H0 by (simpl; lia).
  assert (0 <= clock w1) as H1 by (simpl; lia).
  split; [exact H0|].
  destruct (getAccessToken_contract env_up w_start H0) as [_ Hmiss].
  destruct (getAccessToken_contract env_up w1 H1) as [Hhit _].
  assert (~ token_cached w_start) as Hn by (intros [H _]; discriminate H).
  destruct (Hmiss Hn) as [Hgrant _].
  split.
  - apply (Hgrant (JStr "tok-1")). exists token_reply.
    repeat split; vm_compute; reflexivity.
  - apply Hhit. split; [reflexivity|].
    exists 7201005. split; [reflexivity | simpl; lia].
Defined.

(** What [getAccessToken] leaves alone: the two collections. *)
Lemma getAccessToken_frame env w r w' :
  getAccessToken env w = (r, w') ->
  withdrawals w' = withdrawals w /\ payments w' = payments w.
Proof.
  unfold getAccessToken, try_catch, bind, get_world, Date_now, ask, axios_post.
  destruct (cache_valid w (clock w)); [by intros [= _ <-]|].
  destruct (gateway env AccessToken) as [reply|e0]; [|by intros [= _ <-]].
  destruct (is_nullish reply) eqn:Hb.
  { destruct (prop_nullish reply "status" Hb) as [e ->]. by intros [= _ <-]. }
  rewrite (prop_ok _ _ Hb). simpl.
  destruct (str_is (opt_prop reply "status") "success"); [|by intros [= _ <-]].
  rewrite (prop_ok _ _ Hb). simpl.
  destruct (is_nullish (opt_prop reply "data")) eqn:Hn.
  { destruct (prop_nullish _ "access_token" Hn) as [e ->]. by intros [= _ <-]. }
  rewrite (prop_ok _ _ Hn). by intros [= _ <-].
Qed.

(** At start the token is fetched from the gateway. *)
Lemma token_fetched gw faults :
  gw AccessToken = AxResolve token_reply ->
  getAccessToken (env_with gw faults) w_start = (Ok (JStr "tok-1"), w_token).
Proof.
  intros Hg. unfold getAccessToken, try_catch, bind, get_world, Date_now, ask,
    axios_post. simpl. rewrite Hg. reflexivity.
Qed.

(** ** Creating a withdrawal request *)

(** C4, as the code has it.  When one of the four mandatory fields is
    missing or falsy (undefined, null, false, zero, NaN or the empty string)
    the request is answered 400 [Missing required fields] and nothing else
    happens: no record is written and the gateway is not called. *)
Theorem create_requires_mandatory_fields
    (env : Env) (w : World) (req_body : Doc) (k : string) :
  k ∈ mandatory -> truthy (field req_body k) = false ->
  withdrawal_request req_body env w
  = (Ok (res_status_json 400 (err "Missing required fields")), w).
Proof.
  intros Hk Hf. unfold withdrawal_request, try_catch.
  assert (negb (truthy (field req_body "email_or_phone"))
          || negb (truthy (field req_body "currency"))
          || negb (truthy (field req_body "amount"))
          || negb (truthy (field req_body "payment_method_id")) = true) as ->; [|done].
  unfold mandatory in Hk. rewrite !elem_of_cons, elem_of_nil in Hk.
  destruct Hk as [->|[->|[->|[->|[]]]]]; rewrite Hf; simpl;
    rewrite ?orb_true_r; reflexivity.
Qed.

(** Amount zero is refused. *)
Lemma create_requires_mandatory_fields_witness :
  "amount" ∈ mandatory /\ truthy (field zero_request "amount") = false /\
  withdrawal_request zero_request env_up w_start
  = (Ok (res_status_json 400 (err "Missing required fields")), w_start).
Proof.
  assert ("amount" ∈ mandatory) as Hk by (unfold mandatory; set_solver).
  assert (truthy (field zero_request "amount") = false) as Hz by reflexivity.
  split; [exact Hk|]. split; [exact Hz|].
  exact (create_requires_mandatory_fields env_up w_start zero_request "amount" Hk Hz).
Defined.

(** C4 fails for a negative amount: [!amount] is false for -5, the receiver
    is verified, and a record with amount -5 is written and answered 200. *)
Lemma create_accepts_negative_amount :
  field negative_request "amount" = JNum (-5)
  /\ withdrawals w_start !! "wd-1" = None
  /\ negative_run.1 = Ok (submitted "wd-1")
  /\ code (submitted "wd-1") = 200
  /\ stored_field negative_run.2 "wd-1" "amount" = JNum (-5)
  /\ stored_field negative_run.2 "wd-1" "status" = JStr "pending".
Proof. repeat split; by_vm. Qed.

Lemma validation_passed req_body :
  passes_validation req_body ->
  negb (truthy (field req_body "email_or_phone"))
  || negb (truthy (field req_body "currency"))
  || negb (truthy (field req_body "amount"))
  || negb (truthy (field req_body "payment_method_id")) = false.
Proof. intros Hv. rewrite !Hv; [done|..]; unfold mandatory; set_solver. Qed.

(** C5. A withdrawal request whose mandatory fields pass validation, once
    the token is obtained and the verification call has returned a reply:
    when the reply's status is not success, the answer is 400 [Invalid
    receiver] and no collection is written; when it is success, and the
    store accepts the write, a new document is added with status pending and
    the reply's [data] as [receiver_info], and the answer carries the new id
    and status pending. *)
Theorem create_verifies_receiver (env : Env) (w w1 : World) (req_body : Doc)
    (token reply : JValue) :
  passes_validation req_body ->
  getAccessToken env w = (Ok token, w1) ->
  gateway env VerifyReceiver = AxResolve reply ->
  is_nullish reply = false ->
  let sent := send (verify_call req_body token) (latency env VerifyReceiver) w1 in
  (str_is (opt_prop reply "status") "success" = false ->
     withdrawal_request req_body env w
     = (Ok (res_status_json 400 (err "Invalid receiver")), sent)
     /\ withdrawals sent = withdrawals w /\ payments sent = payments w)
  /\ (opt_prop reply "status" = JStr "success" ->
      opt_prop reply "data" <> JUndefined ->
      store_fault env WithdrawalAdd = None ->
      withdrawals w !! auto_id env = None ->
      let doc := new_withdrawal req_body (opt_prop reply "data") (clock sent) in
      withdrawal_request req_body env w
      = (Ok (submitted (auto_id env)),
         set_coll Withdrawals (<[auto_id env := doc]> (withdrawals w)) sent)
      /\ field doc "status" = JStr "pending"
      /\ field doc "receiver_info" = opt_prop reply "data").
Proof.
  intros Hv Htok Hg Hn sent.
  pose proof (validation_passed _ Hv) as Hval.
  destruct (getAccessToken_frame _ _ _ _ Htok) as [Hw Hp].
  split.
  - intros Hs. split; [|by split].
    unfold withdrawal_request, try_catch, bind, axios_post.
    rewrite Hval, Htok, Hg. fold (verify_call req_body token). fold sent.
    rewrite (prop_ok _ _ Hn). simpl. by rewrite Hs.
  - intros Hs Hd Hf Hfresh doc. split; [|by split].
    unfold withdrawal_request, try_catch, bind, axios_post.
    rewrite Hval, Htok, Hg. fold (verify_call req_body token). fold sent.
    rewrite (prop_ok _ _ Hn). simpl. rewrite Hs. simpl.
    rewrite (prop_ok _ _ Hn). simpl.
    unfold fs_add, bind, get_world.
    rewrite has_undefined_false.
    2:{ repeat constructor; simpl; auto with js; apply truthy_defined, Hv;
        unfold mandatory; set_solver. }
    unfold fs_call. rewrite Hf. simpl. rewrite Hw, Hfresh. reflexivity.
Qed.

(** The spec's scenario: the request for 500 HTG is verified and stored
    under the generated id; with a gateway that does not know the receiver
    the same request is refused and nothing is stored. *)
Lemma create_verifies_receiver_witness :
  (exists w', withdrawal_request sample_request env_up w_start
              = (Ok (submitted "wd-1"), w')
     /\ exists d, withdrawals w' !! "wd-1" = Some d
          /\ field d "status" = JStr "pending" /\ field d "amount" = JNum 500)
  /\ (exists w', withdrawal_request sample_request
                   (env_with gateway_unknown_receiver no_fault) w_start
                 = (Ok (res_status_json 400 (err "Invalid receiver")), w')
        /\ withdrawals w' = withdrawals w_start).
Proof.
  assert (passes_validation sample_request) as Hv.
  { intros k Hk. unfold mandatory in Hk. rewrite !elem_of_cons, elem_of_nil in Hk.
    destruct Hk as [->|[->|[->|[->|[]]]]]; reflexivity. }
  split.
  - destruct (create_verifies_receiver env_up w_start _ sample_request
                (JStr "tok-1") verify_reply Hv
                (token_fetched _ _ eq_refl) eq_refl eq_refl) as [_ Hyes].
    destruct Hyes as [Hrun _]; [reflexivity|discriminate|reflexivity|reflexivity|].
    eexists. split; [exact Hrun|].
    eexists. split; [apply lookup_insert_eq|]. split; reflexivity.
  - destruct (create_verifies_receiver (env_with gateway_unknown_receiver no_fault)
                w_start _ sample_request (JStr "tok-1") _ Hv
                (token_fetched _ _ eq_refl) eq_refl eq_refl) as [Hno _].
    destruct Hno as (Hrun & Hw & _); [reflexivity|].
    eexists. split; [exact Hrun | exact Hw].
Defined.

(** ** Creating a payment *)

(** C6, as the code has it.  A payment request that passes validation, once
    the token is obtained and the gateway has answered the transaction
    request with a success response: when the store accepts the record, the
    record is added and the gateway's reply is returned as it is; when the
    store rejects the write, the failure is what the caller gets, a 500
    [Failed to create payment] with the store's message as details, and no
    record is written. *)
Theorem payment_create_persistence (env : Env) (w w1 : World) (req_body : Doc)
    (token reply : JValue) :
  truthy (field req_body "amount") = true ->
  truthy (field req_body "currency") = true ->
  getAccessToken env w = (Ok token, w1) ->
  gateway env TransactionCreate = AxResolve reply ->
  opt_prop reply "status" = JStr "success" ->
  opt_prop (opt_prop reply "data") "grant_id" <> JUndefined ->
  opt_prop (opt_prop reply "data") "token" <> JUndefined ->
  let sent := send (create_call env req_body token) (latency env TransactionCreate) w1 in
  (store_fault env PaymentAdd = None ->
   payments w !! auto_id env = None ->
   payment_create req_body env w
   = (Ok (res_json reply),
      set_coll Payments
        (<[auto_id env := new_payment req_body (opt_prop reply "data") (clock sent)]>
           (payments w)) sent))
  /\ (forall msg, store_fault env PaymentAdd = Some msg ->
      payment_create req_body env w
      = (Ok (res_status_json 500
               (js_obj [("error", JStr "Failed to create payment");
                        ("details", JStr msg)])),
         log "Error creating payment:" (JStr msg) sent)
      /\ payments (log "Error creating payment:" (JStr msg) sent) = payments w).
Proof.
  intros Ha Hc Htok Hg Hs Hgrant Htk sent.
  destruct (getAccessToken_frame _ _ _ _ Htok) as [Hw Hp].
  assert (is_nullish reply = false) as Hn by (by destruct reply).
  assert (is_nullish (opt_prop reply "data") = false) as Hi.
  { destruct (is_nullish (opt_prop reply "data")) eqn:E; [|done].
    by rewrite (opt_prop_nullish _ _ E) in Hgrant. }
  split.
  - intros Hf Hfresh.
    unfold payment_create, try_catch, bind, axios_post, ask.
    rewrite Ha, Hc. cbn [negb orb]. rewrite Htok. simpl.
    fold (create_call env req_body token).
    rewrite Hg. fold sent. rewrite (prop_ok _ _ Hn). simpl. rewrite Hs. simpl.
    rewrite (prop_ok _ _ Hn). simpl. rewrite !(prop_ok _ _ Hi). simpl.
    unfold fs_add, bind, get_world.
    rewrite has_undefined_false by (repeat constructor; simpl; auto with js).
    unfold fs_call. rewrite Hf. simpl. rewrite Hp, Hfresh. reflexivity.
  - intros msg Hf. split; [|done].
    unfold payment_create, try_catch, bind, axios_post, ask.
    rewrite Ha, Hc. cbn [negb orb]. rewrite Htok. simpl.
    fold (create_call env req_body token).
    rewrite Hg. fold sent. rewrite (prop_ok _ _ Hn). simpl. rewrite Hs. simpl.
    rewrite (prop_ok _ _ Hn). simpl. rewrite !(prop_ok _ _ Hi). simpl.
    unfold fs_add, bind, get_world.
    rewrite has_undefined_false by (repeat constructor; simpl; auto with js).
    unfold fs_call. rewrite Hf. reflexivity.
Qed.

(** A payment of 250 HTG: stored and answered with the gateway's reply when
    the store is up, answered 500 and not stored when the store rejects the
    write. *)
Lemma payment_create_persistence_witness :
  (exists w', payment_create sample_payment env_up w_start
              = (Ok (res_json create_reply), w')
     /\ is_Some (payments w' !! "wd-1"))
  /\ (exists resp w', payment_create sample_payment
                        (env_with gateway_up payments_down) w_start = (Ok resp, w')
        /\ code resp = 500 /\ payments w' = ∅).
Proof.
  split.
  - destruct (payment_create_persistence env_up w_start w_token sample_payment
                (JStr "tok-1") create_reply eq_refl eq_refl
                (token_fetched _ _ eq_refl) eq_refl eq_refl
                ltac:(discriminate) ltac:(discriminate)) as [Hyes _].
    eexists. split; [exact (Hyes eq_refl eq_refl)|].
    eexists. apply lookup_insert_eq.
  - destruct (payment_create_persistence (env_with gateway_up payments_down)
                w_start w_token sample_payment
                (JStr "tok-1") create_reply eq_refl eq_refl
                (token_fetched _ _ eq_refl) eq_refl eq_refl
                ltac:(discriminate) ltac:(discriminate)) as [_ Hno].
    destruct (Hno "UNAVAILABLE" eq_refl) as [Hrun Hp].
    do 2 eexists. split; [exact Hrun|]. split; [reflexivity | exact Hp].
Defined.

(** C6 fails when the store rejects the write: the gateway created the
    transaction and answered success, and the caller is answered 500
    [Failed to create payment], not the gateway's reply. *)
Lemma payment_create_surfaces_store_failure :
  gateway (env_with gateway_up payments_down) TransactionCreate = AxResolve create_reply
  /\ opt_prop create_reply "status" = JStr "success"
  /\ exists resp w',
       payment_create sample_payment (env_with gateway_up payments_down) w_start
       = (Ok resp, w')
       /\ code resp = 500
       /\ opt_prop (body resp) "error" = JStr "Failed to create payment"
       /\ opt_prop (body resp) "details" = JStr "UNAVAILABLE"
       /\ body resp <> create_reply
       /\ payments w' = ∅.
Proof.
  split; [reflexivity|]. split; [reflexivity|].
  do 2 eexists. split; [vm_compute; reflexivity|].
  repeat split; try reflexivity. intros H.
  apply (f_equal (fun v => opt_prop v "error")) in H. discriminate H.
Qed.

(** ** Approving and rejecting a withdrawal *)

#[local] Arguments getAccessToken : simpl never.
#[local] Arguments assign : simpl never.




Lemma try_catch_run {A} (m : M A) h env w :
  try_catch m h env w
  = match m env w with
    | (Ok a, w') => (Ok a, w')
    | (Throw e, w') => h e env w'
    end.
Proof. reflexivity. Qed.

Lemma failed_fields d cause now :
  field (failed d cause now) "status" = JStr "failed"
  /\ field (failed d cause now) "processed_at" = JTime now
  /\ field (failed d cause now) "error_message"
     = or_else (opt_prop (response_data cause) "message") (JStr (message cause))
  /\ field (failed d cause now) "processed_by" = field d "processed_by".
Proof. unfold failed, assign, field; simpl. by simplify_map_eq. Qed.

(** What the catch block of [approve] does on a stored request. *)
Lemma approve_catch_run env w id d cause :
  withdrawals w !! id = Some d ->
  let logged := log "Error approving withdrawal:" (details cause) w in
  approve_catch id cause env w
  = match store_fault env ApproveMarkFailed with
    | None =>
        (Ok (processing_failed cause),
         set_coll Withdrawals (<[id := failed d cause (clock w)]> (withdrawals w))
                  logged)
    | Some msg =>
        (Ok (processing_failed cause),
         log "Error updating failed status:" (JStr msg) logged)
    end.
Proof.
  intros Hd logged.
  unfold approve_catch, bind, console_error, modify, try_catch, fs_update, bind,
    get_world. fold logged.
  rewrite has_undefined_false by (repeat constructor; simpl; auto with js).
  unfold fs_call. destruct (store_fault env ApproveMarkFailed); [done|].
  simpl. by rewrite Hd.
Qed.


(** The scenario request is stored in [w_pending], where the token fetched
    for it is still cached. *)
Lemma w_pending_record :
  withdrawals w_pending !! "wd-1"
  = Some (new_withdrawal sample_request (opt_prop verify_reply "data") 1010).
Proof. by_vm. Qed.

Lemma w_pending_token gw faults :
  getAccessToken (env_with gw faults) w_pending = (Ok (JStr "tok-1"), w_pending).
Proof. reflexivity. Qed.


Lemma approved_fields d req_body data now :
  field (approved d req_body data now) "status" = JStr "approved"
  /\ field (approved d req_body data now) "processed_at" = JTime now
  /\ field (approved d req_body data now) "processed_by"
     = or_else (field req_body "adminId") (JStr "admin")
  /\ field (approved d req_body data now) "ezipay_response" = data
  /\ field (approved d req_body data now) "created_at" = field d "created_at".
Proof. unfold approved, assign, field; simpl. by simplify_map_eq. Qed.

(** The try block of [approve] on a stored pending request: it either
    answers 200 with the record approved, or throws with the record still
    stored. *)
Lemma approve_try_outcome env w id d req_body :
  withdrawals w !! id = Some d ->
  field d "status" = JStr "pending" ->
  store_fault env ApproveGet = None ->
  exists r w', approve_try id req_body env w = (r, w')
    /\ match r with
       | Ok resp =>
           code resp = 200 /\
           exists d', withdrawals w' !! id = Some d'
                      /\ field d' "status" = JStr "approved"
       | Throw _ => exists d', withdrawals w' !! id = Some d'
       end.
Proof.
  intros Hd Hs Hf.
  unfold approve_try, bind, fs_get, fs_call. rewrite Hf. simpl.
  rewrite Hd, Hs. simpl.
  destruct (getAccessToken env w) as [[token|e] w1] eqn:Htok;
    destruct (getAccessToken_frame _ _ _ _ Htok) as [Hw _].
  2:{ do 2 eexists. split; [reflexivity|]. exists d. by rewrite Hw. }
  unfold axios_post. fold (payout_call d token).
  destruct (gateway env SendMoneyCreate) as [data|cause].
  2:{ do 2 eexists. split; [reflexivity|]. exists d. simpl. by rewrite Hw. }
  unfold fs_update, bind, get_world.
  match goal with |- context [has_undefined ?l] => destruct (has_undefined l) end.
  { do 2 eexists. split; [reflexivity|]. exists d. simpl. by rewrite Hw. }
  unfold fs_call.
  destruct (store_fault env ApproveUpdate).
  { do 2 eexists. split; [reflexivity|]. exists d. simpl. by rewrite Hw. }
  simpl. rewrite Hw, Hd.
  change (assign d _)
    with (approved d req_body data (clock w1 + latency env SendMoneyCreate)).
  destruct (approved_fields d req_body data (clock w1 + latency env SendMoneyCreate))
    as (A1 & A2 & _ & _ & A5).
  remember (approved d req_body data (clock w1 + latency env SendMoneyCreate))
    as d' eqn:Ed'. clear Ed'.
  destruct (store_fault env ApproveReget).
  { do 2 eexists. split; [reflexivity|]. exists d'. simpl. apply lookup_insert_eq. }
  simpl. rewrite lookup_insert_eq. unfold rendered, bind.
  destruct (field d' "created_at") eqn:Hc; simpl; rewrite ?A2; simpl;
    do 2 eexists; (split; [reflexivity|]); simpl;
    try (split; [reflexivity|]); exists d'; rewrite lookup_insert_eq; done.
Qed.

(** C9. Approve on a stored pending request whose first read succeeded,
    with the store accepting the catch block's write.  Whatever happens after
    the pending check, the request ends either answered 200 with the record
    approved, or answered 500 with the record in status failed and an
    [error_message]: the catch block runs for every exception of the try
    block.  In particular, when the payout has been accepted by the gateway
    and the update to approved, or the read that follows it, is rejected by
    the store, the payout request is in the outbox and the record is written
    to status failed with the store's message. *)
Theorem approve_marks_failed_on_any_exception
    (env : Env) (w : World) (id : string) (d req_body : Doc) :
  withdrawals w !! id = Some d ->
  field d "status" = JStr "pending" ->
  store_fault env ApproveGet = None ->
  store_fault env ApproveMarkFailed = None ->
  (exists resp w', approve id req_body env w = (Ok resp, w') /\
     ((code resp = 200 /\
       exists d', withdrawals w' !! id = Some d'
                  /\ field d' "status" = JStr "approved")
      \/ (code resp = 500 /\
          exists d', withdrawals w' !! id = Some d'
                     /\ field d' "status" = JStr "failed"
                     /\ field d' "error_message" <> JUndefined)))
  /\ (forall token w1 data,
        getAccessToken env w = (Ok token, w1) ->
        gateway env SendMoneyCreate = AxResolve data ->
        data <> JUndefined ->
        let sent := send (payout_call d token) (latency env SendMoneyCreate) w1 in
        (forall msg, store_fault env ApproveUpdate = Some msg ->
           exists w' d',
             approve id req_body env w = (Ok (processing_failed (Error msg)), w')
             /\ payout_call d token ∈ outbox w'
             /\ withdrawals w' !! id = Some d'
             /\ d' = failed d (Error msg) (clock sent)
             /\ field d' "status" = JStr "failed"
             /\ field d' "error_message" = JStr msg)
        /\ (store_fault env ApproveUpdate = None ->
            forall msg, store_fault env ApproveReget = Some msg ->
            exists w' d',
              approve id req_body env w = (Ok (processing_failed (Error msg)), w')
              /\ payout_call d token ∈ outbox w'
              /\ withdrawals w' !! id = Some d'
              /\ d' = failed (approved d req_body data (clock sent)) (Error msg)
                             (clock sent)
              /\ field d' "status" = JStr "failed"
              /\ field d' "error_message" = JStr msg)).
Proof.
  intros Hd Hs Hf Hm. split.
  - destruct (approve_try_outcome env w id d req_body Hd Hs Hf)
      as (r & w' & Hrun & Hr).
    unfold approve. rewrite try_catch_run, Hrun. destruct r as [resp|cause].
    + exists resp, w'. split; [done|]. by left.
    + destruct Hr as [d' Hd'].
      rewrite (approve_catch_run _ _ _ _ _ Hd'), Hm.
      do 2 eexists. split; [reflexivity|]. right. split; [reflexivity|].
      exists (failed d' cause (clock w')). simpl. rewrite lookup_insert_eq.
      destruct (failed_fields d' cause (clock w')) as (F1 & _ & F3 & _).
      split; [done|]. split; [done|]. rewrite F3. by apply or_else_defined.
  - intros token w1 data Htok Hg Hdata sent.
    destruct (getAccessToken_frame _ _ _ _ Htok) as [Hw _].
    assert (forall k : Doc,
      has_undefined [("status", JStr "approved");
                     ("processed_at", JTime (clock sent));
                     ("processed_by", or_else (field k "adminId") (JStr "admin"));
                     ("ezipay_response", data)] = false) as Hu.
    { intros k. apply has_undefined_false. repeat constructor; simpl; auto with js. }
    split.
    + intros msg Hup.
      assert (approve_try id req_body env w = (Throw (Error msg), sent)) as Htry.
      { unfold approve_try, bind, fs_get, fs_call. rewrite Hf. simpl.
        rewrite Hd, Hs. simpl. rewrite Htok. unfold axios_post.
        fold (payout_call d token). rewrite Hg. fold sent.
        unfold fs_update, bind, get_world. rewrite Hu.
        unfold fs_call. by rewrite Hup. }
      assert (withdrawals sent !! id = Some d) as Hd' by (simpl; by rewrite Hw).
      unfold approve.
      rewrite try_catch_run, Htry, (approve_catch_run _ _ _ _ _ Hd'), Hm.
      destruct (failed_fields d (Error msg) (clock sent)) as (F1 & _ & F3 & _).
      do 2 eexists. split; [reflexivity|]. split; [simpl; set_solver|].
      split; [simpl; apply lookup_insert_eq|]. split; [done|]. by split.
    + intros Hup msg Hre.
      set (d1 := approved d req_body data (clock sent)).
      assert (approve_try id req_body env w
              = (Throw (Error msg),
                 set_coll Withdrawals (<[id := d1]> (withdrawals w)) sent)) as Htry.
      { unfold approve_try, bind, fs_get, fs_call. rewrite Hf. simpl.
        rewrite Hd, Hs. simpl. rewrite Htok. unfold axios_post.
        fold (payout_call d token). rewrite Hg. fold sent.
        unfold fs_update, bind, get_world. rewrite Hu.
        unfold fs_call. rewrite Hup. simpl. rewrite Hw, Hd, Hre. reflexivity. }
      assert (withdrawals (set_coll Withdrawals (<[id := d1]> (withdrawals w)) sent)
              !! id = Some d1) as Hd' by (simpl; apply lookup_insert_eq).
      unfold approve.
      rewrite try_catch_run, Htry, (approve_catch_run _ _ _ _ _ Hd'), Hm.
      destruct (failed_fields d1 (Error msg) (clock sent)) as (F1 & _ & F3 & _).
      do 2 eexists. split; [reflexivity|]. split; [simpl; set_solver|].
      split; [simpl; apply lookup_insert_eq|]. split; [done|]. by split.
Qed.

(** The store rejects the update to approved after the gateway accepted the
    payout of the scenario request: the record is marked failed. *)
Lemma approve_marks_failed_on_any_exception_witness :
  exists w' d',
    approve "wd-1" by_operator (env_with gateway_up update_down) w_pending
    = (Ok (processing_failed (Error "UNAVAILABLE")), w')
    /\ (exists c, c ∈ outbox w' /\ call_endpoint c = SendMoneyCreate)
    /\ withdrawals w' !! "wd-1" = Some d'
    /\ field d' "status" = JStr "failed"
    /\ field d' "error_message" = JStr "UNAVAILABLE".
Proof.
  destruct (approve_marks_failed_on_any_exception
              (env_with gateway_up update_down) w_pending "wd-1" _ by_operator
              w_pending_record eq_refl eq_refl eq_refl) as [_ Hpart].
  destruct (Hpart (JStr "tok-1") w_pending payout_reply
              (w_pending_token _ _) eq_refl ltac:(discriminate)) as [Hup _].
  destruct (Hup "UNAVAILABLE" eq_refl) as (w' & d' & Hrun & Hout & Hd' & _ & Hs & Hm).
  exists w', d'. split; [exact Hrun|]. split; [|by repeat split].
  eexists. split; [exact Hout | reflexivity].
Defined.

Lemma rejected_fields d req_body now :
  field (rejected d req_body now) "status" = JStr "rejected"
  /\ field (rejected d req_body now) "processed_at" = JTime now
  /\ field (rejected d req_body now) "processed_by"
     = or_else (field req_body "adminId") (JStr "admin")
  /\ field (rejected d req_body now) "rejection_reason"
     = or_else (field req_body "reason") (JStr "No reason provided")
  /\ field (rejected d req_body now) "created_at" = field d "created_at"
  /\ rejected d req_body now !! "ezipay_response" = d !! "ezipay_response"
  /\ rejected d req_body now !! "error_message" = d !! "error_message".
Proof. unfold rejected, assign, field; simpl. by simplify_map_eq. Qed.

(** [reject] sends nothing to the gateway, whatever the store does. *)
Lemma reject_outbox env w id req_body r w' :
  reject id req_body env w = (r, w') -> outbox w' = outbox w.
Proof.
  unfold reject, try_catch, bind, fs_get, fs_call.
  destruct (store_fault env RejectGet); [by intros [= _ <-]|]. simpl.
  destruct (withdrawals w !! id) as [d|]; [|by intros [= _ <-]].
  destruct (negb (str_is (field d "status") "pending")); [by intros [= _ <-]|].
  unfold fs_update, bind, get_world.
  match goal with |- context [has_undefined ?l] => destruct (has_undefined l) end;
    [by intros [= _ <-]|].
  unfold fs_call. destruct (store_fault env RejectUpdate); [by intros [= _ <-]|].
  simpl. destruct (withdrawals w !! id) as [d0|]; [|by intros [= _ <-]].
  simpl. destruct (store_fault env RejectReget); [by intros [= _ <-]|].
  simpl. rewrite lookup_insert_eq. unfold rendered, bind.
  destruct (render_time _ env _) as [[c|e] w2] eqn:Hc.
  2:{ assert (outbox w2 = outbox w) as Ho.
      { revert Hc. destruct (field _ "created_at"); simpl;
          unfold bind, ask, ret, throw; by intros [= _ <-]. }
      by intros [= _ <-]. }
  assert (outbox w2 = outbox w) as Ho.
  { revert Hc. destruct (field _ "created_at"); simpl;
      unfold bind, ask, ret, throw; by intros [= _ <-]. }
  destruct (render_time _ env w2) as [[p|e] w3] eqn:Hp.
  all: assert (outbox w3 = outbox w2) as Ho'
    by (revert Hp; destruct (field _ "processed_at"); simpl;
        unfold bind, ask, ret, throw; by intros [= _ <-]).
  all: intros [= _ <-]; simpl; congruence.
Qed.

(** C8. Reject on a stored pending request.  Whatever the store does, no
    request goes to the gateway.  When the three store calls succeed, the
    record gets status rejected, the server time as [processed_at], the given
    admin id or ["admin"] as [processed_by] and the given reason or
    ["No reason provided"] as [rejection_reason]; the keys [ezipay_response]
    and [error_message] are as before (absent stays absent); and the answer
    is 200 with the updated record, its timestamps rendered. *)
Theorem reject_pending_request (env : Env) (w : World) (id : string)
    (d req_body : Doc) (created : Z) :
  withdrawals w !! id = Some d ->
  field d "status" = JStr "pending" ->
  field d "created_at" = JTime created ->
  let d' := rejected d req_body (clock w) in
  (forall env', outbox (reject id req_body env' w).2 = outbox w)
  /\ (store_fault env RejectGet = None ->
      store_fault env RejectUpdate = None ->
      store_fault env RejectReget = None ->
      reject id req_body env w
      = (Ok (rejection_done (shown env id d' created (clock w))),
         set_coll Withdrawals (<[id := d']> (withdrawals w)) w))
  /\ field d' "status" = JStr "rejected"
  /\ field d' "processed_at" = JTime (clock w)
  /\ field d' "processed_by" = or_else (field req_body "adminId") (JStr "admin")
  /\ field d' "rejection_reason"
     = or_else (field req_body "reason") (JStr "No reason provided")
  /\ d' !! "ezipay_response" = d !! "ezipay_response"
  /\ d' !! "error_message" = d !! "error_message".
Proof.
  intros Hd Hs Hc d'.
  destruct (rejected_fields d req_body (clock w)) as (R1 & R2 & R3 & R4 & R5 & R6 & R7).
  fold d' in R1, R2, R3, R4, R5, R6, R7.
  split; [|split; [|done]].
  - intros env'. destruct (reject id req_body env' w) as [r w'] eqn:E.
    exact (reject_outbox _ _ _ _ _ _ E).
  - intros H1 H2 H3.
    unfold reject, try_catch, bind, fs_get, fs_call. rewrite H1. simpl.
    rewrite Hd, Hs. simpl.
    unfold fs_update, bind, get_world.
    rewrite has_undefined_false by (repeat constructor; simpl; auto with js).
    unfold fs_call. rewrite H2. simpl. rewrite Hd, H3. simpl.
    rewrite lookup_insert_eq.
    change (assign d _) with d'.
    unfold rendered, bind. rewrite R5, Hc. simpl. rewrite R2. reflexivity.
Qed.

(** The scenario request is rejected by operator op-7. *)
Lemma reject_pending_request_witness :
  exists data w' d',
    reject "wd-1" rejection_body env_up w_pending = (Ok (rejection_done data), w')
    /\ outbox w' = outbox w_pending
    /\ withdrawals w' !! "wd-1" = Some d'
    /\ field d' "status" = JStr "rejected"
    /\ field d' "processed_by" = JStr "op-7"
    /\ field d' "rejection_reason" = JStr "Duplicate request"
    /\ d' !! "ezipay_response" = None
    /\ d' !! "error_message" = None.
Proof.
  destruct (reject_pending_request env_up w_pending "wd-1" _ rejection_body 1010
              w_pending_record eq_refl eq_refl)
    as (Hout & Hrun & Hs & _ & Hby & Hwhy & He & Hm).
  do 3 eexists. split; [exact (Hrun eq_refl eq_refl eq_refl)|].
  split; [reflexivity|]. split; [apply lookup_insert_eq|].
  split; [exact Hs|]. split; [exact Hby|]. split; [exact Hwhy|].
  split; [rewrite He | rewrite Hm]; reflexivity.
Defined.

(** C3 at the failing input: operator op-7 approves the scenario request
    and the gateway refuses the payout.  The record is written to the
    terminal status failed with [processed_at] set, and [processed_by] is
    still null: the catch block's update does not write it, while the
    updates to approved and to rejected do. *)
Lemma failed_request_keeps_null_processed_by :
  stored_field w_pending "wd-1" "status" = JStr "pending"
  /\ refused_run.1 = Ok (processing_failed payout_refused)
  /\ code (processing_failed payout_refused) = 500
  /\ stored_field refused_run.2 "wd-1" "status" = JStr "failed"
  /\ stored_field refused_run.2 "wd-1" "processed_at" = JTime 1015
  /\ stored_field refused_run.2 "wd-1" "processed_by" = JNull.
Proof. repeat split; by_vm. Qed.

(** ** Every stored record is well formed *)

Section Preservation.

Variable P : World -> Prop.

Lemma preserves_ret {A} (a : A) : preserves P (ret a).
Proof. by intros env w r w' [= _ <-]. Qed.

Lemma preserves_throw {A} e : preserves P (@throw A e).
Proof. by intros env w r w' [= _ <-]. Qed.

Lemma preserves_bind {A B} (m : M A) (k : A -> M B) :
  preserves P m -> (forall a, preserves P (k a)) -> preserves P (bind m k).
Proof.
  intros Hm Hk env w r w'. unfold bind.
  destruct (m env w) as [[a|e] w1] eqn:E; intros H HP.
  - eapply Hk; [exact H|]. eapply Hm; eauto.
  - injection H as _ <-. eapply Hm; eauto.
Qed.

Lemma preserves_try_catch {A} (m : M A) (h : JsError -> M A) :
  preserves P m -> (forall e, preserves P (h e)) -> preserves P (try_catch m h).
Proof.
  intros Hm Hh env w r w'. unfold try_catch.
  destruct (m env w) as [[a|e] w1] eqn:E; intros H HP.
  - injection H as _ <-. eapply Hm; eauto.
  - eapply Hh; [exact H|]. eapply Hm; eauto.
Qed.

Lemma preserves_read {A} (f : Env -> World -> Outcome A) :
  preserves P (fun env w => (f env w, w)).
Proof. by intros env w r w' [= _ <-]. Qed.

Lemma preserves_modify (f : World -> World) :
  (forall w, P w -> P (f w)) -> preserves P (modify f).
Proof. intros Hf env w r w' [= _ <-]. apply Hf. Qed.

Lemma preserves_prop v k : preserves P (prop v k).
Proof. destruct v; simpl; by intros env w r w' [= _ <-]. Qed.

Lemma preserves_fs_call {A} s (k : M A) : preserves P k -> preserves P (fs_call s k).
Proof.
  intros Hk env w r w'. unfold fs_call.
  destruct (store_fault env s); [by intros [= _ <-]|]. apply Hk.
Qed.

End Preservation.

(** The record invariant looks at the withdrawals only. *)
Lemma records_ok_same w w' :
  withdrawals w' = withdrawals w -> records_ok w -> records_ok w'.
Proof. unfold records_ok. by intros ->. Qed.

Lemma records_ok_insert w w' id d :
  withdrawals w' = <[id := d]> (withdrawals w) ->
  record_ok d -> records_ok w -> records_ok w'.
Proof.
  intros Hw Hd Hok id' d'. rewrite Hw, lookup_insert.
  case_decide; [by intros [= <-] | apply Hok].
Qed.

Lemma preserves_console_error label v : preserves records_ok (console_error label v).
Proof. apply preserves_modify. intros w. by apply records_ok_same. Qed.

Lemma preserves_axios_post ep body bearer :
  preserves records_ok (axios_post ep body bearer).
Proof.
  intros env w r w'. unfold axios_post.
  destruct (gateway env ep); intros [= _ <-]; by apply records_ok_same.
Qed.

Lemma preserves_getAccessToken : preserves records_ok getAccessToken.
Proof.
  intros env w r w' H. destruct (getAccessToken_frame _ _ _ _ H) as [Hw _].
  by apply records_ok_same.
Qed.

Lemma preserves_fs_get s c id : preserves records_ok (fs_get s c id).
Proof. apply preserves_fs_call, preserves_read with (f := fun _ w => Ok (coll c w !! id)). Qed.

Lemma preserves_fs_all s c : preserves records_ok (fs_all s c).
Proof.
  apply preserves_fs_call,
    preserves_read with (f := fun _ w => Ok (map_to_list (coll c w))).
Qed.

Lemma preserves_fs_where s c k lit : preserves records_ok (fs_where s c k lit).
Proof.
  apply preserves_fs_call,
    preserves_read with
      (f := fun _ w => Ok (List.filter (fun x => str_is (field x.2 k) lit)
                                       (map_to_list (coll c w)))).
Qed.

Lemma preserves_render_time v : preserves records_ok (render_time v).
Proof. destruct v; simpl; by intros env w r w' [= _ <-]. Qed.

Lemma preserves_rendered id snapshot : preserves records_ok (rendered id snapshot).
Proof.
  destruct snapshot as [d|]; simpl; [|apply preserves_throw].
  apply preserves_bind; [apply preserves_render_time|]. intros c.
  apply preserves_bind; [apply preserves_render_time|]. intros p.
  apply preserves_ret.
Qed.

(** A write to the payments does not touch the withdrawals. *)
Lemma preserves_fs_add_payments s data : preserves records_ok (fs_add s Payments data).
Proof.
  intros env w r w'. unfold fs_add, bind, get_world, fs_call.
  destruct (has_undefined _); [by intros [= _ <-]|].
  destruct (store_fault env s); [by intros [= _ <-]|].
  simpl. destruct (payments w !! auto_id env); intros [= _ <-]; by apply records_ok_same.
Qed.

Lemma preserves_fs_add s (data : Literal) :
  (forall now, record_ok (assign ∅ (data now))) ->
  preserves records_ok (fs_add s Withdrawals data).
Proof.
  intros Hdata env w r w'. unfold fs_add, bind, get_world, fs_call.
  destruct (has_undefined _); [by intros [= _ <-]|].
  destruct (store_fault env s); [by intros [= _ <-]|].
  simpl. destruct (withdrawals w !! auto_id env); intros [= _ <-]; [done|].
  by apply records_ok_insert with (id := auto_id env) (d := assign ∅ (data (clock w))).
Qed.

Lemma preserves_fs_update s id (data : Literal) :
  (forall now d, record_ok d -> record_ok (assign d (data now))) ->
  preserves records_ok (fs_update s Withdrawals id data).
Proof.
  intros Hdata env w r w'. unfold fs_update, bind, get_world, fs_call.
  destruct (has_undefined _); [by intros [= _ <-]|].
  destruct (store_fault env s); [by intros [= _ <-]|].
  simpl. destruct (withdrawals w !! id) as [d|] eqn:Hd; intros [= _ <-]; [|done].
  intros Hok.
  apply records_ok_insert with (w := w) (id := id) (d := assign d (data (clock w)));
    [done | | done].
  apply Hdata. by apply (Hok id).
Qed.

Ltac fields := unfold field, assign; simpl; simplify_map_eq; simpl.

Lemma record_ok_new (a b c e f g h i : JValue) now :
  record_ok (assign ∅
    [("email_or_phone", a); ("currency", b); ("amount", c);
     ("payment_method_id", e); ("moncash_account_number", f);
     ("userId", g); ("userEmail", h); ("receiver_info", i);
     ("status", JStr "pending"); ("created_at", JTime now);
     ("processed_at", JNull); ("processed_by", JNull)]).
Proof.
  unfold record_ok.
  match goal with |- valid_status (field ?d _) /\ _ =>
    assert (field d "status" = JStr "pending") as Hs by (by fields);
    assert (field d "processed_by" = JNull) as Hby by (by fields);
    assert (field d "processed_at" = JNull) as Hat by (by fields);
    assert (field d "created_at" = JTime now) as Hc by (by fields);
    assert (d !! "ezipay_response" = None) as H1 by (by fields);
    assert (d !! "error_message" = None) as H2 by (by fields);
    assert (d !! "rejection_reason" = None) as H3 by (by fields)
  end.
  rewrite Hs, Hby, Hat, Hc, H1, H2, H3.
  split; [by left|]. split; [done|].
  split; [by intros [?|?] | by exists now].
Qed.

Lemma record_ok_approved d by_whom data now :
  truthy by_whom = true ->
  record_ok d ->
  record_ok (assign d [("status", JStr "approved"); ("processed_at", JTime now);
                       ("processed_by", by_whom); ("ezipay_response", data)]).
Proof.
  intros Hby (_ & _ & _ & [t Ht]). unfold record_ok.
  match goal with |- valid_status (field ?d' _) /\ _ =>
    assert (field d' "status" = JStr "approved") as Hs by (by fields);
    assert (field d' "processed_by" = by_whom) as Hw by (by fields);
    assert (field d' "processed_at" = JTime now) as Hat by (by fields);
    assert (field d' "created_at" = field d "created_at") as Hc by (by fields)
  end.
  rewrite Hs, Hw, Hat, Hc, Ht.
  split; [right; by left|]. split; [done|].
  split; [intros _; split; [done | by exists now] | by exists t].
Qed.

Lemma record_ok_rejected d by_whom why now :
  truthy by_whom = true ->
  record_ok d ->
  record_ok (assign d [("status", JStr "rejected"); ("processed_at", JTime now);
                       ("processed_by", by_whom); ("rejection_reason", why)]).
Proof.
  intros Hby (_ & _ & _ & [t Ht]). unfold record_ok.
  match goal with |- valid_status (field ?d' _) /\ _ =>
    assert (field d' "status" = JStr "rejected") as Hs by (by fields);
    assert (field d' "processed_by" = by_whom) as Hw by (by fields);
    assert (field d' "processed_at" = JTime now) as Hat by (by fields);
    assert (field d' "created_at" = field d "created_at") as Hc by (by fields)
  end.
  rewrite Hs, Hw, Hat, Hc, Ht.
  split; [right; right; by left|]. split; [done|].
  split; [intros _; split; [done | by exists now] | by exists t].
Qed.

Lemma record_ok_failed d why now :
  record_ok d ->
  record_ok (assign d [("status", JStr "failed"); ("processed_at", JTime now);
                       ("error_message", why)]).
Proof.
  intros (_ & _ & _ & [t Ht]). unfold record_ok.
  match goal with |- valid_status (field ?d' _) /\ _ =>
    assert (field d' "status" = JStr "failed") as Hs by (by fields);
    assert (field d' "created_at" = field d "created_at") as Hc by (by fields)
  end.
  rewrite Hs, Hc, Ht.
  split; [right; right; by right|]. split; [done|].
  split; [by intros [?|?] | by exists t].
Qed.

Ltac preserve :=
  repeat first
    [ apply preserves_ret
    | apply preserves_throw
    | apply preserves_getAccessToken
    | apply preserves_axios_post
    | apply preserves_console_error
    | apply preserves_prop
    | apply preserves_fs_get
    | apply preserves_fs_all
    | apply preserves_fs_where
    | apply preserves_rendered
    | apply preserves_render_time
    | apply preserves_fs_add_payments
    | apply preserves_fs_add; intros ?; apply record_ok_new
    | apply preserves_fs_update; intros ? ?;
      first [ apply record_ok_approved; by apply or_else_truthy
            | apply record_ok_rejected; by apply or_else_truthy
            | apply record_ok_failed ]
    | apply preserves_read with (f := fun env _ => Ok env)
    | apply preserves_bind; [|intros ?]
    | apply preserves_try_catch; [|intros ?]
    | match goal with
      | |- preserves _ (if ?c then _ else _) => destruct c
      | |- preserves _ (match ?x with Some _ => _ | None => _ end) => destruct x
      end ].

(** Every route keeps the stored records well formed, in every
    environment and however it ends. *)
Lemma preserves_handle r : preserves records_ok (handle r).
Proof.
  destruct r as [b|b|b|b|id b|id b|id|]; simpl.
  - unfold payment_create. cbv zeta. preserve.
  - unfold payment_methods. cbv zeta. preserve.
  - unfold verify_receiver. cbv zeta. preserve.
  - unfold withdrawal_request. cbv zeta. preserve.
  - unfold approve, approve_try, approve_catch. cbv zeta. preserve.
  - unfold reject. cbv zeta. preserve.
  - unfold withdrawal_status. preserve.
  - unfold stats. preserve.
Qed.

(** Every record of a reachable world is well formed. *)
Lemma reachable_records_ok w : reachable w -> records_ok w.
Proof.
  induction 1 as [now | w r env _ IH | w dt _ IH _].
  - intros id d. simpl. by rewrite lookup_empty.
  - destruct (handle r env w) as [res w'] eqn:E. simpl.
    exact (preserves_handle r env w res w' E IH).
  - by apply records_ok_same with (w := w).
Qed.

(** ** Statistics *)

(** In a snapshot whose documents all have one of the four statuses, the
    four counts add up to the size. *)
Lemma count_partition (docs : list (string * Doc)) :
  Forall (fun doc => valid_status (field doc.2 "status")) docs ->
  Z.of_nat (List.length docs)
  = count_status "pending" docs + count_status "approved" docs
    + count_status "rejected" docs + count_status "failed" docs.
Proof.
  unfold count_status. induction 1 as [|doc docs Hdoc _ IH]; [done|].
  cbn [List.length List.filter].
  destruct Hdoc as [-> | [-> | [-> | ->]]]; cbn [str_is String.eqb Ascii.eqb
    Bool.eqb andb List.length]; lia.
Qed.

(** What [stats] answers, by the outcome of its four queries. *)
Lemma stats_run env w :
  let docs := map_to_list (withdrawals w) in
  stats env w
  = match store_fault env StatsAll, store_fault env StatsPending,
          store_fault env StatsApproved, store_fault env StatsRejected with
    | None, None, None, None =>
        (Ok (stats_reply (Z.of_nat (List.length docs))
               (count_status "pending" docs) (count_status "approved" docs)
               (count_status "rejected" docs) (count_status "failed" docs)), w)
    | Some msg, _, _, _ | None, Some msg, _, _ | None, None, Some msg, _
    | None, None, None, Some msg =>
        (Ok (res_status_json 500 (err "Failed to fetch statistics")),
         log "Error fetching stats:" (JStr msg) w)
    end.
Proof.
  intros docs. unfold stats, try_catch, bind, fs_all, fs_where, fs_call.
  destruct (store_fault env StatsAll); [done|].
  destruct (store_fault env StatsPending); [done|].
  destruct (store_fault env StatsApproved); [done|].
  by destruct (store_fault env StatsRejected).
Qed.

(** C10. In every world the process can reach, each stored withdrawal
    record has status pending, approved, rejected or failed.  So the counts
    of [stats] add up: when its four queries succeed it answers 200 with the
    number of records as total and the four counts by status, the total is
    the sum of the four, and whenever it answers 200 the total it reports is
    that sum. *)
Theorem stats_total_is_sum (w : World) :
  reachable w ->
  (forall id d, withdrawals w !! id = Some d -> valid_status (field d "status"))
  /\ (forall env : Env,
      let docs := map_to_list (withdrawals w) in
      let pending := count_status "pending" docs in
      let approved := count_status "approved" docs in
      let rejected := count_status "rejected" docs in
      let failed := count_status "failed" docs in
      Z.of_nat (size (withdrawals w)) = pending + approved + rejected + failed
      /\ (store_fault env StatsAll = None ->
          store_fault env StatsPending = None ->
          store_fault env StatsApproved = None ->
          store_fault env StatsRejected = None ->
          stats env w
          = (Ok (stats_reply (Z.of_nat (size (withdrawals w)))
                   pending approved rejected failed), w))
      /\ (forall resp w', stats env w = (Ok resp, w') -> code resp = 200 ->
          resp = stats_reply (pending + approved + rejected + failed)
                   pending approved rejected failed)).
Proof.
  intros Hreach. pose proof (reachable_records_ok w Hreach) as Hok.
  assert (forall id d, withdrawals w !! id = Some d -> valid_status (field d "status"))
    as Hst by (intros id d Hd; by destruct (Hok id d Hd)).
  split; [exact Hst|]. intros env docs pending approved rejected failed.
  assert (Z.of_nat (List.length docs) = pending + approved + rejected + failed) as Hsum.
  { apply count_partition. apply Forall_forall. intros [id d] Hin.
    apply elem_of_map_to_list in Hin. by apply (Hst id). }
  assert (size (withdrawals w) = List.length docs) as Hsize.
  { unfold docs. by rewrite length_map_to_list. }
  rewrite Hsize. split; [exact Hsum|]. pose proof (stats_run env w) as Hrun.
  cbv zeta in Hrun. fold docs in Hrun.
  fold pending approved rejected failed in Hrun. split.
  - intros H1 H2 H3 H4. by rewrite Hrun, H1, H2, H3, H4.
  - intros resp w'. rewrite Hrun, <- Hsum.
    destruct (store_fault env StatsAll); [by intros [= <- _]|].
    destruct (store_fault env StatsPending); [by intros [= <- _]|].
    destruct (store_fault env StatsApproved); [by intros [= <- _]|].
    destruct (store_fault env StatsRejected); [by intros [= <- _]|].
    by intros [= <- _].
Qed.

Lemma w_five_reachable : reachable w_five.
Proof. unfold w_five, serve. repeat apply reach_request. apply reach_start. Qed.

(** The spec's scenario: 2 pending, 1 approved, 1 rejected and 1 failed
    request give total 5. *)
Lemma stats_total_is_sum_witness :
  reachable w_five
  /\ stats env_up w_five = (Ok (stats_reply 5 2 1 1 1), w_five).
Proof.
  split; [exact w_five_reachable|].
  destruct (stats_total_is_sum w_five w_five_reachable) as [_ Hstats].
  destruct (Hstats env_up) as (_ & Hrun & _).
  rewrite (Hrun eq_refl eq_refl eq_refl eq_refl).
  assert (Z.of_nat (size (withdrawals w_five)) = 5) as -> by by_vm.
  assert (count_status "pending" (map_to_list (withdrawals w_five)) = 2) as -> by by_vm.
  assert (count_status "approved" (map_to_list (withdrawals w_five)) = 1) as -> by by_vm.
  assert (count_status "rejected" (map_to_list (withdrawals w_five)) = 1) as -> by by_vm.
  assert (count_status "failed" (map_to_list (withdrawals w_five)) = 1) as -> by by_vm.
  reflexivity.
Defined.

(** * Further properties of the routes *)

(** ** Running [getAccessToken] *)

Lemma getAccessToken_cached env w :
  cache_valid w (clock w) = true ->
  getAccessToken env w = (Ok (accessToken w), w).
Proof.
  intros H. unfold getAccessToken, try_catch, bind, get_world, Date_now.
  by rewrite H.
Qed.

Lemma getAccessToken_fetched env w tok :
  cache_valid w (clock w) = false ->
  grants (gateway env AccessToken) tok ->
  getAccessToken env w
  = (Ok tok, set_expiry (clock w + latency env AccessToken + 7200000)
               (set_token tok (send (token_request env) (latency env AccessToken) w))).
Proof.
  intros Hf (reply & Hg & Hs & Hn & ->).
  unfold getAccessToken, try_catch, bind, get_world, Date_now, ask, axios_post.
  rewrite Hf. fold (token_request env). rewrite Hg.
  assert (is_nullish reply = false) as Hb by (by destruct reply).
  rewrite (prop_ok _ _ Hb), Hs. simpl.
  rewrite (prop_ok _ _ Hb). simpl. rewrite (prop_ok _ _ Hn). reflexivity.
Qed.

(** [getAccessToken] sends nothing, or the token request and nothing else;
    it sends nothing exactly when it answers from the cache. *)
Lemma getAccessToken_outbox env w r w' :
  getAccessToken env w = (r, w') ->
  (cache_valid w (clock w) = true /\ outbox w' = outbox w)
  \/ (cache_valid w (clock w) = false
      /\ outbox w' = (outbox w ++ [token_request env])%list).
Proof.
  unfold getAccessToken, try_catch, bind, get_world, Date_now, ask, axios_post.
  destruct (cache_valid w (clock w)); [intros [= _ <-]; by left|].
  fold (token_request env). intros H. right. split; [done|]. revert H.
  destruct (gateway env AccessToken) as [reply|e0]; [|by intros [= _ <-]].
  destruct (is_nullish reply) eqn:Hb.
  { destruct (prop_nullish reply "status" Hb) as [e ->]. by intros [= _ <-]. }
  rewrite (prop_ok _ _ Hb). simpl.
  destruct (str_is (opt_prop reply "status") "success"); [|by intros [= _ <-]].
  rewrite (prop_ok _ _ Hb). simpl.
  destruct (is_nullish (opt_prop reply "data")) eqn:Hn.
  { destruct (prop_nullish _ "access_token" Hn) as [e ->]. by intros [= _ <-]. }
  rewrite (prop_ok _ _ Hn). by intros [= _ <-].
Qed.

(** ** The token is reused for two hours *)

(** X1. A truthy token fetched from the gateway is served from the cache,
    without any request, by every call made less than two hours after it was
    stored, in whatever environment; a call made two hours after or later
    posts a new token request. *)
Theorem token_reused_for_two_hours (env env' : Env) (w : World) (tok : JValue)
    (dt : Z) :
  0 <= clock w + latency env AccessToken ->
  cache_valid w (clock w) = false ->
  grants (gateway env AccessToken) tok ->
  truthy tok = true ->
  0 <= dt ->
  exists w1, getAccessToken env w = (Ok tok, w1)
    /\ outbox w1 = (outbox w ++ [token_request env])%list
    /\ (dt < 7200000 ->
        getAccessToken env' (advance dt w1) = (Ok tok, advance dt w1))
    /\ (7200000 <= dt ->
        forall r w2, getAccessToken env' (advance dt w1) = (r, w2) ->
        outbox w2 = (outbox w ++ [token_request env; token_request env'])%list).
Proof.
  intros Hc Hmiss Hg Htok Hdt. eexists. split; [by apply getAccessToken_fetched|].
  split; [done|]. split.
  - intros Hlt.
    rewrite (getAccessToken_cached env'); [done|].
    unfold cache_valid; simpl. rewrite Htok. simpl.
    apply andb_true_iff. split; [apply negb_true_iff|]; lia.
  - intros Hge r w2 Hrun.
    destruct (getAccessToken_outbox _ _ _ _ Hrun) as [[Hv _]|[_ Ho]].
    + exfalso. revert Hv. unfold cache_valid; simpl. rewrite Htok. simpl.
      intros Hv. apply andb_true_iff in Hv as [_ Hv]. lia.
    + rewrite Ho. simpl. by rewrite <- app_assoc.
Qed.

(** The token fetched at start is reused one hour later and fetched again
    two hours later. *)
Lemma token_reused_for_two_hours_witness :
  getAccessToken env_up (advance 3600000 w_token)
  = (Ok (JStr "tok-1"), advance 3600000 w_token)
  /\ List.length (outbox (getAccessToken env_up (advance 7200000 w_token)).2) = 2%nat.
Proof.
  assert (grants (gateway env_up AccessToken) (JStr "tok-1")) as Hg.
  { exists token_reply. repeat split; by_vm. }
  split.
  - destruct (token_reused_for_two_hours env_up env_up w_start (JStr "tok-1")
                3600000 ltac:(simpl; lia) eq_refl Hg eq_refl ltac:(lia))
      as (w1 & Hrun & _ & Hhit & _).
    unfold env_up in Hrun at 1.
    rewrite (token_fetched gateway_up no_fault eq_refl) in Hrun.
    injection Hrun as <-. apply Hhit. lia.
  - destruct (token_reused_for_two_hours env_up env_up w_start (JStr "tok-1")
                7200000 ltac:(simpl; lia) eq_refl Hg eq_refl ltac:(lia))
      as (w1 & Hrun & _ & _ & Hmiss).
    unfold env_up in Hrun at 1.
    rewrite (token_fetched gateway_up no_fault eq_refl) in Hrun.
    injection Hrun as <-.
    destruct (getAccessToken env_up (advance 7200000 w_token)) as [r w2] eqn:E.
    cbn [snd]. rewrite (Hmiss (ltac:(lia)) r w2 eq_refl). reflexivity.
Defined.

(** ** Approve, when everything succeeds *)

(** X3. Approve on a stored pending request, when the reads and the update
    succeed and the gateway answers the payout request with a 2xx reply: the
    payout request carries the stored receiver, currency, amount and payment
    method and the bearer token; the record becomes approved, with the
    server time, the given admin id or ["admin"], and the gateway's reply
    body as [ezipay_response], whatever that body says; and the answer is 200
    with the updated record. *)
Theorem approve_success (env : Env) (w w1 : World) (id : string)
    (d req_body : Doc) (token data : JValue) (created : Z) :
  withdrawals w !! id = Some d ->
  field d "status" = JStr "pending" ->
  field d "created_at" = JTime created ->
  store_fault env ApproveGet = None ->
  getAccessToken env w = (Ok token, w1) ->
  gateway env SendMoneyCreate = AxResolve data ->
  data <> JUndefined ->
  store_fault env ApproveUpdate = None ->
  store_fault env ApproveReget = None ->
  let sent := send (payout_call d token) (latency env SendMoneyCreate) w1 in
  let d' := approved d req_body data (clock sent) in
  approve id req_body env w
  = (Ok (approval_done (shown env id d' created (clock sent))),
     set_coll Withdrawals (<[id := d']> (withdrawals w)) sent)
  /\ field d' "status" = JStr "approved"
  /\ field d' "processed_by" = or_else (field req_body "adminId") (JStr "admin")
  /\ field d' "ezipay_response" = data
  /\ opt_prop (call_body (payout_call d token)) "amount" = field d "amount"
  /\ opt_prop (call_body (payout_call d token)) "email_or_phone"
     = field d "email_or_phone"
  /\ call_bearer (payout_call d token) = Some token.
Proof.
  intros Hd Hs Hc Hf Htok Hg Hdata Hup Hre sent d'.
  destruct (getAccessToken_frame _ _ _ _ Htok) as [Hw _].
  destruct (approved_fields d req_body data (clock sent)) as (A1 & A2 & A3 & A4 & A5).
  fold d' in A1, A2, A3, A4, A5.
  split; [|split; [done|split; [done|split; [done|]]]].
  - unfold approve. rewrite try_catch_run.
    unfold approve_try, bind, fs_get, fs_call. rewrite Hf. simpl.
    rewrite Hd, Hs. simpl. rewrite Htok. unfold axios_post.
    fold (payout_call d token). rewrite Hg. fold sent.
    unfold fs_update, bind, get_world.
    rewrite has_undefined_false by (repeat constructor; simpl; auto with js).
    unfold fs_call. rewrite Hup. simpl. rewrite Hw, Hd, Hre. simpl.
    rewrite lookup_insert_eq.
    change (assign d _) with d'.
    unfold rendered, bind. rewrite A5, Hc. simpl. rewrite A2. reflexivity.
  - unfold payout_call, js_obj, opt_prop, field, assign; simpl.
    destruct (truthy (default JUndefined (d !! "moncash_account_number")));
      simpl; by simplify_map_eq.
Qed.

(** The scenario request is approved by operator op-7; and it is approved
    just the same when the gateway's 2xx reply reports an error in its
    body. *)
Lemma approve_success_witness :
  (exists data w', approve "wd-1" by_operator env_up w_pending
                   = (Ok (approval_done data), w')
     /\ stored_field w' "wd-1" "status" = JStr "approved"
     /\ stored_field w' "wd-1" "processed_by" = JStr "op-7")
  /\ (exists data w',
        approve "wd-1" by_operator (env_with gateway_payout_soft_error no_fault)
                w_pending = (Ok (approval_done data), w')
        /\ stored_field w' "wd-1" "status" = JStr "approved"
        /\ opt_prop (stored_field w' "wd-1" "ezipay_response") "status"
           = JStr "error").
Proof.
  split.
  - destruct (approve_success env_up w_pending w_pending "wd-1" _ by_operator
                (JStr "tok-1") payout_reply 1010 w_pending_record eq_refl eq_refl
                eq_refl (w_pending_token _ _) eq_refl ltac:(discriminate)
                eq_refl eq_refl) as (Hrun & Hs & Hby & _).
    do 2 eexists. split; [exact Hrun|].
    unfold stored_field. simpl withdrawals. rewrite lookup_insert_eq.
    split; [exact Hs | exact Hby].
  - destruct (approve_success (env_with gateway_payout_soft_error no_fault)
                w_pending w_pending "wd-1" _ by_operator
                (JStr "tok-1") _ 1010 w_pending_record eq_refl eq_refl
                eq_refl (w_pending_token _ _) eq_refl ltac:(discriminate)
                eq_refl eq_refl) as (Hrun & Hs & _ & Hresp & _).
    do 2 eexists. split; [exact Hrun|].
    unfold stored_field. simpl withdrawals. rewrite lookup_insert_eq.
    split; [exact Hs|].
    exact (eq_trans (f_equal (fun v => opt_prop v "status") Hresp) eq_refl).
Defined.

(** ** A request that is not stored *)

(** X5. Approve, Reject and the status route on an id that is not stored, when
    the read succeeds: the answer is 404 [Withdrawal not found] and nothing
    else happens (no write, no gateway request, no log line). *)
Theorem missing_request_not_found (env : Env) (w : World) (id : string)
    (req_body : Doc) :
  withdrawals w !! id = None ->
  (store_fault env ApproveGet = None ->
     approve id req_body env w = (Ok not_found, w))
  /\ (store_fault env RejectGet = None ->
      reject id req_body env w = (Ok not_found, w))
  /\ (store_fault env StatusGet = None ->
      withdrawal_status id env w = (Ok not_found, w)).
Proof.
  intros Hd. repeat split; intros Hf.
  - unfold approve, approve_try, try_catch, bind, fs_get, fs_call.
    rewrite Hf. simpl. by rewrite Hd.
  - unfold reject, try_catch, bind, fs_get, fs_call. rewrite Hf. simpl.
    by rewrite Hd.
  - unfold withdrawal_status, try_catch, bind, fs_get, fs_call. rewrite Hf.
    simpl. by rewrite Hd.
Qed.

Lemma missing_request_not_found_witness :
  withdrawals w_pending !! "wd-2" = None
  /\ approve "wd-2" ∅ env_up w_pending = (Ok not_found, w_pending)
  /\ reject "wd-2" ∅ env_up w_pending = (Ok not_found, w_pending)
  /\ withdrawal_status "wd-2" env_up w_pending = (Ok not_found, w_pending).
Proof.
  assert (withdrawals w_pending !! "wd-2" = None) as Hd by by_vm.
  destruct (missing_request_not_found env_up w_pending "wd-2" ∅ Hd)
    as (Ha & Hr & Hs).
  split; [exact Hd|]. split; [exact (Ha eq_refl)|].
  split; [exact (Hr eq_refl) | exact (Hs eq_refl)].
Defined.

(** ** The status route *)

(** X6. The status route on a stored request whose [created_at] is a timestamp,
    when the read succeeds: it answers 200 with the id, the stored status,
    amount and currency and the creation time as an ISO string;
    [processed_at] is undefined while the stored one is null and the ISO
    string of the stored time afterwards.  In every case, also when the read
    fails, the route writes no collection, leaves the token cache alone and
    sends nothing. *)
Theorem status_route_projects (env : Env) (w : World) (id : string) (d : Doc)
    (created : Z) :
  withdrawals w !! id = Some d ->
  field d "created_at" = JTime created ->
  (forall env' r w', withdrawal_status id env' w = (r, w') ->
     withdrawals w' = withdrawals w /\ payments w' = payments w
     /\ accessToken w' = accessToken w /\ tokenExpiry w' = tokenExpiry w
     /\ outbox w' = outbox w)
  /\ (store_fault env StatusGet = None ->
      (field d "processed_at" = JNull ->
         withdrawal_status id env w
         = (Ok (status_shown id d (JStr (toISOString env created)) JUndefined), w))
      /\ (forall processed, field d "processed_at" = JTime processed ->
         withdrawal_status id env w
         = (Ok (status_shown id d (JStr (toISOString env created))
                  (JStr (toISOString env processed))), w))).
Proof.
  intros Hd Hc. split.
  - intros env' r w'.
    unfold withdrawal_status, try_catch, bind, fs_get, fs_call.
    destruct (store_fault env' StatusGet); [by intros [= _ <-]|]. simpl.
    rewrite Hd, Hc. simpl.
    destruct (field d "processed_at"); simpl; by intros [= _ <-].
  - intros Hf. split.
    + intros Hp. unfold withdrawal_status, try_catch, bind, fs_get, fs_call.
      rewrite Hf. simpl. rewrite Hd, Hc. simpl. by rewrite Hp.
    + intros p Hp. unfold withdrawal_status, try_catch, bind, fs_get, fs_call.
      rewrite Hf. simpl. rewrite Hd, Hc. simpl. by rewrite Hp.
Qed.

Lemma status_route_projects_witness :
  withdrawal_status "wd-1" env_up w_pending
  = (Ok (status_shown "wd-1"
           (new_withdrawal sample_request (opt_prop verify_reply "data") 1010)
           (JStr "1970-01-01T00:00:01.005Z") JUndefined), w_pending).
Proof.
  destruct (status_route_projects env_up w_pending "wd-1" _ 1010
              w_pending_record eq_refl) as [_ Hrun].
  destruct (Hrun eq_refl) as [Hpending _]. exact (Hpending eq_refl).
Defined.

(** ** What a route can do to the stored withdrawals *)

Section Frame.

Variable Q : gmap string Doc -> Prop.

Lemma frame_same w w' :
  withdrawals w' = withdrawals w -> of_withdrawals Q w -> of_withdrawals Q w'.
Proof. unfold of_withdrawals. by intros ->. Qed.

Lemma frame_console_error label v :
  preserves (of_withdrawals Q) (console_error label v).
Proof. apply preserves_modify. intros w. by apply frame_same. Qed.

Lemma frame_axios_post ep body bearer :
  preserves (of_withdrawals Q) (axios_post ep body bearer).
Proof.
  intros env w r w'. unfold axios_post.
  destruct (gateway env ep); intros [= _ <-]; by apply frame_same.
Qed.

Lemma frame_getAccessToken : preserves (of_withdrawals Q) getAccessToken.
Proof.
  intros env w r w' H. destruct (getAccessToken_frame _ _ _ _ H) as [Hw _].
  by apply frame_same.
Qed.

Lemma frame_fs_get s c id : preserves (of_withdrawals Q) (fs_get s c id).
Proof.
  apply preserves_fs_call, preserves_read with (f := fun _ w => Ok (coll c w !! id)).
Qed.

Lemma frame_fs_all s c : preserves (of_withdrawals Q) (fs_all s c).
Proof.
  apply preserves_fs_call,
    preserves_read with (f := fun _ w => Ok (map_to_list (coll c w))).
Qed.

Lemma frame_fs_where s c k lit : preserves (of_withdrawals Q) (fs_where s c k lit).
Proof.
  apply preserves_fs_call,
    preserves_read with
      (f := fun _ w => Ok (List.filter (fun x => str_is (field x.2 k) lit)
                                       (map_to_list (coll c w)))).
Qed.

Lemma frame_render_time v : preserves (of_withdrawals Q) (render_time v).
Proof. destruct v; simpl; by intros env w r w' [= _ <-]. Qed.

Lemma frame_rendered id snapshot : preserves (of_withdrawals Q) (rendered id snapshot).
Proof.
  destruct snapshot as [d|]; simpl; [|apply preserves_throw].
  apply preserves_bind; [apply frame_render_time|]. intros c.
  apply preserves_bind; [apply frame_render_time|]. intros p.
  apply preserves_ret.
Qed.

Lemma frame_fs_add_payments s data :
  preserves (of_withdrawals Q) (fs_add s Payments data).
Proof.
  intros env w r w'. unfold fs_add, bind, get_world, fs_call.
  destruct (has_undefined _); [by intros [= _ <-]|].
  destruct (store_fault env s); [by intros [= _ <-]|].
  simpl. destruct (payments w !! auto_id env); intros [= _ <-]; by apply frame_same.
Qed.

(** An add puts one new document under an unused id. *)
Lemma frame_fs_add s (data : Literal) :
  (forall m id now, m !! id = None -> Q m -> Q (<[id := assign ∅ (data now)]> m)) ->
  preserves (of_withdrawals Q) (fs_add s Withdrawals data).
Proof.
  intros Hadd env w r w'. unfold fs_add, bind, get_world, fs_call.
  destruct (has_undefined _); [by intros [= _ <-]|].
  destruct (store_fault env s); [by intros [= _ <-]|].
  simpl. destruct (withdrawals w !! auto_id env) eqn:Hid; intros [= _ <-]; [done|].
  unfold of_withdrawals. simpl. by apply Hadd.
Qed.

(** An update rewrites one stored document with the literal's keys. *)
Lemma frame_fs_update s id (data : Literal) :
  (forall m d now, m !! id = Some d -> Q m -> Q (<[id := assign d (data now)]> m)) ->
  preserves (of_withdrawals Q) (fs_update s Withdrawals id data).
Proof.
  intros Hup env w r w'. unfold fs_update, bind, get_world, fs_call.
  destruct (has_undefined _); [by intros [= _ <-]|].
  destruct (store_fault env s); [by intros [= _ <-]|].
  simpl. destruct (withdrawals w !! id) as [d|] eqn:Hd; intros [= _ <-]; [|done].
  unfold of_withdrawals. simpl. by apply Hup.
Qed.

End Frame.

Ltac frame_with add_tac update_tac :=
  repeat first
    [ apply preserves_ret
    | apply preserves_throw
    | apply frame_getAccessToken
    | apply frame_axios_post
    | apply frame_console_error
    | apply preserves_prop
    | apply frame_fs_get
    | apply frame_fs_all
    | apply frame_fs_where
    | apply frame_rendered
    | apply frame_render_time
    | apply frame_fs_add_payments
    | apply frame_fs_add; add_tac
    | apply frame_fs_update; update_tac
    | apply preserves_read with (f := fun env _ => Ok env)
    | apply preserves_bind; [|intros ?]
    | apply preserves_try_catch; [|intros ?]
    | match goal with
      | |- preserves _ (if ?c then _ else _) => destruct c
      | |- preserves _ (match ?x with Some _ => _ | None => _ end) => destruct x
      end ].

(** *** The request data of a stored record never changes *)

Lemma same_request_data_refl d : same_request_data d d.
Proof. by intros k _. Qed.

Lemma same_request_data_trans d1 d2 d3 :
  same_request_data d1 d2 -> same_request_data d2 d3 -> same_request_data d1 d3.
Proof. intros H12 H23 k Hk. by rewrite (H23 k Hk), (H12 k Hk). Qed.

(** Writing processing keys over a document keeps its request data. *)
Lemma same_request_data_assign d (l : list (string * JValue)) :
  Forall (fun kv => kv.1 ∈ processing_keys) l ->
  same_request_data d (assign d l).
Proof.
  unfold assign. revert d. induction l as [|[k v] l IH]; intros d Hl.
  - apply same_request_data_refl.
  - apply Forall_cons in Hl as [Hk Hl]. simpl in *.
    apply same_request_data_trans with (d2 := <[k := v]> d); [|by apply IH].
    intros k' Hk'. apply lookup_insert_ne. by intros ->.
Qed.

Lemma kept_add R m0 m id d :
  m !! id = None -> kept R m0 m -> kept R m0 (<[id := d]> m).
Proof.
  intros Hid Hk id0 d0 H0. destruct (Hk id0 d0 H0) as (d1 & H1 & HR).
  exists d1. split; [|done]. rewrite lookup_insert_ne; [done|].
  intros ->. congruence.
Qed.

Lemma kept_update (R : Doc -> Doc -> Prop) m0 m id d d' :
  (forall a b c, R a b -> R b c -> R a c) ->
  m !! id = Some d -> R d d' -> kept R m0 m -> kept R m0 (<[id := d']> m).
Proof.
  intros Htrans Hid HR Hk id0 d0 H0. destruct (Hk id0 d0 H0) as (d1 & H1 & HR1).
  destruct (decide (id = id0)) as [->|Hne].
  - exists d'. rewrite lookup_insert_eq. split; [done|].
    rewrite Hid in H1. injection H1 as <-. by eapply Htrans.
  - exists d1. by rewrite lookup_insert_ne.
Qed.

Ltac processing_literal :=
  apply same_request_data_assign; repeat constructor; simpl;
  unfold processing_keys; set_solver.

Ltac no_write := fail.

Ltac add_kept := intros ? ? ? ?; apply kept_add; done.

Ltac update_kept_data :=
  let H := fresh in
  intros ? ? ? H;
  eapply kept_update;
    [apply same_request_data_trans | exact H | processing_literal].

Lemma handle_keeps_request_data m0 r :
  preserves (of_withdrawals (kept same_request_data m0)) (handle r).
Proof.
  destruct r as [b|b|b|b|id b|id b|id|]; simpl.
  - unfold payment_create. cbv zeta. frame_with no_write no_write.
  - unfold payment_methods. cbv zeta. frame_with no_write no_write.
  - unfold verify_receiver. cbv zeta. frame_with no_write no_write.
  - unfold withdrawal_request. cbv zeta. frame_with add_kept no_write.
  - unfold approve, approve_try, approve_catch. cbv zeta.
    frame_with no_write update_kept_data.
  - unfold reject. cbv zeta. frame_with no_write update_kept_data.
  - unfold withdrawal_status. frame_with no_write no_write.
  - unfold stats. frame_with no_write no_write.
Qed.

(** X12. Whatever requests are served after a record has been stored, in whatever
    environments, the record is still stored and every field of it other
    than the six processing keys (status, processed_at, processed_by,
    ezipay_response, error_message, rejection_reason) is what it was: the
    receiver, the currency, the amount, the payment method, the requester,
    the verification snapshot and the creation time. *)
Theorem request_data_is_immutable (w w' : World) (id : string) (d : Doc) :
  evolves w w' ->
  withdrawals w !! id = Some d ->
  exists d', withdrawals w' !! id = Some d' /\
    forall k, k ∉ processing_keys -> d' !! k = d !! k.
Proof.
  intros Hev Hd.
  assert (of_withdrawals (kept same_request_data (withdrawals w)) w') as Hk.
  { induction Hev as [| w' r env _ IH | w' dt _ IH _].
    - intros id0 d0 H0. exists d0. split; [done | apply same_request_data_refl].
    - destruct (handle r env w') as [res w2] eqn:E. simpl.
      exact (handle_keeps_request_data _ r env w' res w2 E IH).
    - exact IH. }
  destruct (Hk id d Hd) as (d' & Hd' & Hsame). by exists d'.
Qed.

(** After the scenario request was approved, its amount and receiver are
    what was requested. *)
Lemma request_data_is_immutable_witness :
  exists d', withdrawals w_approved !! "wd-1" = Some d'
    /\ d' !! "amount" = Some (JNum 500)
    /\ d' !! "email_or_phone" = Some (JStr "a@b.com").
Proof.
  assert ("amount" ∉ processing_keys) as Ha.
  { unfold processing_keys. rewrite !not_elem_of_cons.
    repeat split; [discriminate.. | apply not_elem_of_nil]. }
  assert ("email_or_phone" ∉ processing_keys) as He.
  { unfold processing_keys. rewrite !not_elem_of_cons.
    repeat split; [discriminate.. | apply not_elem_of_nil]. }
  assert (evolves w_pending w_approved) as Hev.
  { unfold w_approved.
    exact (evolves_request w_pending w_pending (WithdrawalApprove "wd-1" ∅)
             env_up (evolves_now w_pending)). }
  destruct (request_data_is_immutable w_pending w_approved "wd-1" _ Hev
              w_pending_record) as (d' & Hd' & Hsame).
  exists d'. split; [exact Hd'|]. split.
  - rewrite (Hsame _ Ha). by_vm.
  - rewrite (Hsame _ He). by_vm.
Defined.

(** ** What Approve and Reject do, in every environment *)

Lemma render_time_world v env w r w' : render_time v env w = (r, w') -> w' = w.
Proof. destruct v; simpl; unfold bind, ask, ret, throw; by intros [= _ <-]. Qed.

Lemma rendered_world id snapshot env w r w' :
  rendered id snapshot env w = (r, w') -> w' = w.
Proof.
  destruct snapshot as [d|]; simpl; [|by intros [= _ <-]]. unfold bind.
  destruct (render_time (field d "created_at") env w) as [[c|e] w1] eqn:Hc;
    apply render_time_world in Hc as ->; [|by intros [= _ <-]].
  destruct (render_time (field d "processed_at") env w) as [[p|e] w1] eqn:Hp;
    apply render_time_world in Hp as ->; by intros [= _ <-].
Qed.

(** The catch block of [approve] sends nothing, and writes nothing or marks
    the stored record failed. *)
Lemma approve_catch_effect env w id cause r w' :
  approve_catch id cause env w = (r, w') ->
  r = Ok (processing_failed cause)
  /\ outbox w' = outbox w
  /\ (withdrawals w' = withdrawals w
      \/ exists d, withdrawals w !! id = Some d
           /\ withdrawals w' = <[id := failed d cause (clock w)]> (withdrawals w)).
Proof.
  destruct (withdrawals w !! id) as [d|] eqn:Hd.
  - rewrite (approve_catch_run _ _ _ _ _ Hd).
    destruct (store_fault env ApproveMarkFailed); intros [= <- <-].
    + split; [done|]. split; [done|]. by left.
    + split; [done|]. split; [done|]. right. by exists d.
  - unfold approve_catch, bind, console_error, modify, try_catch, fs_update,
      bind, get_world.
    rewrite has_undefined_false by (repeat constructor; simpl; auto with js).
    unfold fs_call. destruct (store_fault env ApproveMarkFailed).
    + intros [= <- <-]. split; [done|]. split; [done|]. by left.
    + simpl. rewrite Hd. intros [= <- <-]. split; [done|]. split; [done|]. by left.
Qed.

(** The try block of [approve] on a stored pending request whose first read
    succeeded: it may post the token request, then the payout request, then
    write the record approved; it stops at the first of these that fails,
    and it answers only after the write. *)
Lemma approve_try_pending env w id req_body d r w1 :
  withdrawals w !! id = Some d ->
  field d "status" = JStr "pending" ->
  store_fault env ApproveGet = None ->
  approve_try id req_body env w = (r, w1) ->
  exists tcalls, (tcalls = [] \/ tcalls = [token_request env]) /\
    ((outbox w1 = (outbox w ++ tcalls)%list
      /\ withdrawals w1 = withdrawals w /\ exists e, r = Throw e)
     \/ exists token,
          outbox w1 = (outbox w ++ tcalls ++ [payout_call d token])%list
          /\ ((withdrawals w1 = withdrawals w /\ exists e, r = Throw e)
              \/ exists data,
                   withdrawals w1
                   = <[id := approved d req_body data (clock w1)]> (withdrawals w))).
Proof.
  intros Hd Hs Hf.
  unfold approve_try, bind, fs_get, fs_call. rewrite Hf. simpl.
  rewrite Hd, Hs. simpl.
  destruct (getAccessToken env w) as [[token|e] w0] eqn:Htok;
    destruct (getAccessToken_frame _ _ _ _ Htok) as [Hw _];
    assert (exists tcalls, (tcalls = [] \/ tcalls = [token_request env])
              /\ outbox w0 = (outbox w ++ tcalls)%list) as (tcalls & Ht & Ho)
      by (destruct (getAccessToken_outbox _ _ _ _ Htok) as [[_ ->]|[_ ->]];
          [exists []; split; [by left | by rewrite app_nil_r]
          |exists [token_request env]; split; [by right | done]]).
  2:{ intros [= <- <-]. exists tcalls. split; [done|]. left. eauto. }
  intros Hrun. exists tcalls. split; [done|]. right. exists token.
  revert Hrun. unfold axios_post.
  change (mkCall SendMoneyCreate _ (Some token)) with (payout_call d token).
  set (sent := send (payout_call d token) (latency env SendMoneyCreate) w0).
  assert (outbox sent = (outbox w ++ tcalls ++ [payout_call d token])%list) as Hos
    by (simpl; by rewrite Ho, app_assoc).
  assert (withdrawals sent = withdrawals w) as Hws by done.
  destruct (gateway env SendMoneyCreate) as [data|cause]; cbv beta iota.
  2:{ intros [= <- <-]. split; [done|]. left. split; [done | eauto]. }
  unfold fs_update, bind, get_world.
  match goal with |- context [has_undefined ?l] => destruct (has_undefined l) end;
    cbv beta iota.
  { intros [= <- <-]. split; [done|]. left. split; [done | eauto]. }
  unfold fs_call.
  destruct (store_fault env ApproveUpdate); cbv beta iota.
  { intros [= <- <-]. split; [done|]. left. split; [done | eauto]. }
  cbn [coll]. rewrite Hws, Hd. cbv beta iota.
  change (assign d _) with (approved d req_body data (clock sent)).
  set (d' := approved d req_body data (clock sent)).
  destruct (store_fault env ApproveReget); cbv beta iota.
  { intros [= <- <-]. split; [done|]. right. by exists data. }
  cbn [coll set_coll withdrawals]. rewrite lookup_insert_eq.
  match goal with |- context [rendered id (Some d') env ?W] =>
    destruct (rendered id (Some d') env W) as [[shownData|e] W'] eqn:Hr;
    apply rendered_world in Hr as ->
  end; cbv beta iota; intros [= <- <-]; (split; [done|]); right; by exists data.
Qed.

(** Before the pending check is passed, the try block of [approve] changes
    nothing and does not answer 200. *)
Lemma approve_try_guarded env w id req_body r w1 :
  approve_try id req_body env w = (r, w1) ->
  (exists d, withdrawals w !! id = Some d /\ field d "status" = JStr "pending"
             /\ store_fault env ApproveGet = None)
  \/ (w1 = w /\ forall resp, r = Ok resp -> code resp <> 200).
Proof.
  unfold approve_try, bind, fs_get, fs_call.
  destruct (store_fault env ApproveGet) eqn:Hf.
  { intros [= <- <-]. right. by split. }
  simpl. destruct (withdrawals w !! id) as [d|] eqn:Hd.
  2:{ intros [= <- <-]. right. split; [done|]. by intros ? [= <-]. }
  destruct (str_is (field d "status") "pending") eqn:Hs; simpl.
  - intros _. left. exists d. apply str_is_true in Hs. by repeat split.
  - intros [= <- <-]. right. split; [done|]. by intros ? [= <-].
Qed.



(** Approve, in every environment and however it ends: what it sends, what
    it writes, and what an answer of 200 means. *)
Lemma approve_effect env w id req_body r w' :
  approve id req_body env w = (r, w') ->
  exists calls,
    outbox w' = (outbox w ++ calls)%list
    /\ payout_traffic env w id calls
    /\ rewrote id (withdrawals w) (withdrawals w')
    /\ (forall resp, r = Ok resp -> code resp = 200 ->
        exists d token data,
          withdrawals w !! id = Some d
          /\ field d "status" = JStr "pending"
          /\ payout_call d token ∈ calls
          /\ withdrawals w' !! id = Some (approved d req_body data (clock w'))).
Proof.
  unfold approve. rewrite try_catch_run.
  destruct (approve_try id req_body env w) as [[resp|cause] w1] eqn:Htry.
  - intros [= <- <-].
    destruct (approve_try_guarded _ _ _ _ _ _ Htry) as [(d & Hd & Hs & Hf)|[-> Hno]].
    2:{ exists []. rewrite app_nil_r. split; [done|]. split; [by left|].
        split; [by left|]. intros resp' [= <-] Hc. by destruct (Hno resp eq_refl). }
    destruct (approve_try_pending _ _ _ _ _ _ _ Hd Hs Hf Htry)
      as (tcalls & Ht & [(_ & _ & e & He)|(token & Ho & Hrest)]); [discriminate|].
    destruct Hrest as [(_ & e & He)|[data Hw]]; [discriminate|].
    exists (tcalls ++ [payout_call d token])%list. split; [done|]. split.
    { right. exists d, token. split; [done|]. split; [done|].
      destruct Ht as [-> | ->]; [right; by left | right; by right]. }
    split.
    { right. exists d, (approved d req_body data (clock w1)).
      split; [done|]. split; [done|].
      destruct (approved_fields d req_body data (clock w1)) as (-> & _).
      rewrite Hs. right; right. split; [done | by left]. }
    intros resp' _ _. exists d, token, data. split; [done|]. split; [done|].
    split; [apply elem_of_app; right; by apply list_elem_of_singleton|].
    rewrite Hw. apply lookup_insert_eq.
  - intros Hcatch.
    destruct (approve_catch_effect _ _ _ _ _ _ Hcatch) as (-> & Hout & Hwrite).
    assert (forall resp, Ok (processing_failed cause) = Ok resp -> code resp = 200 ->
      exists d token data,
        withdrawals w !! id = Some d /\ field d "status" = JStr "pending"
        /\ payout_call d token ∈ ([] : list GatewayCall)
        /\ withdrawals w' !! id = Some (approved d req_body data (clock w')))
      as Hnever by (intros resp [= <-]; discriminate).
    destruct (approve_try_guarded _ _ _ _ _ _ Htry) as [(d & Hd & Hs & Hf)|[-> _]].
    2:{ exists []. rewrite app_nil_r. split; [done|]. split; [by left|]. split.
        - destruct Hwrite as [->|(d & Hd & ->)]; [by left|].
          right. exists d, (failed d cause (clock w)). split; [done|]. split; [done|].
          destruct (failed_fields d cause (clock w)) as (-> & _). right; by left.
        - intros resp [= <-]; discriminate. }
    destruct (approve_try_pending _ _ _ _ _ _ _ Hd Hs Hf Htry)
      as (tcalls & Ht & [(Ho & Hw & _)|(token & Ho & Hrest)]).
    + exists tcalls. split; [by rewrite Hout|]. split.
      { destruct Ht as [-> | ->]; [by left|]. right. exists d, JNull.
        split; [done|]. split; [done|]. by left. }
      split; [|intros resp [= <-]; discriminate].
      rewrite <- Hw. destruct Hwrite as [->|(d1 & Hd1 & ->)]; [by left|].
      right. exists d1, (failed d1 cause (clock w1)). split; [done|]. split; [done|].
      destruct (failed_fields d1 cause (clock w1)) as (-> & _). right; by left.
    + exists (tcalls ++ [payout_call d token])%list. split; [by rewrite Hout|].
      split.
      { right. exists d, token. split; [done|]. split; [done|].
        destruct Ht as [-> | ->]; [right; by left | right; by right]. }
      split; [|intros resp [= <-]; discriminate].
      destruct Hrest as [(Hw & _)|[data Hw]].
      * rewrite <- Hw. destruct Hwrite as [->|(d1 & Hd1 & ->)]; [by left|].
        right. exists d1, (failed d1 cause (clock w1)).
        split; [done|]. split; [done|].
        destruct (failed_fields d1 cause (clock w1)) as (-> & _). right; by left.
      * destruct (approved_fields d req_body data (clock w1)) as (Ha & _).
        destruct Hwrite as [->|(d1 & Hd1 & ->)].
        { right. exists d, (approved d req_body data (clock w1)).
          split; [done|]. split; [done|]. rewrite Ha, Hs.
          right; right. split; [done | by left]. }
        right. exists d, (failed d1 cause (clock w1)). split; [done|].
        split; [by rewrite Hw, insert_insert_eq|].
        destruct (failed_fields d1 cause (clock w1)) as (-> & _). right; by left.
Qed.

(** Reject, in every environment and however it ends: it writes nothing, or
    the stored record was pending and is now rejected. *)
Lemma reject_effect env w id req_body r w' :
  reject id req_body env w = (r, w') ->
  withdrawals w' = withdrawals w
  \/ exists d, withdrawals w !! id = Some d
       /\ field d "status" = JStr "pending"
       /\ withdrawals w' = <[id := rejected d req_body (clock w)]> (withdrawals w).
Proof.
  unfold reject, try_catch, bind, fs_get, fs_call.
  destruct (store_fault env RejectGet); [intros [= _ <-]; by left|]. simpl.
  destruct (withdrawals w !! id) as [d|] eqn:Hd; [|intros [= _ <-]; by left].
  destruct (str_is (field d "status") "pending") eqn:Hs; simpl;
    [|intros [= _ <-]; by left].
  apply str_is_true in Hs.
  unfold fs_update, bind, get_world.
  match goal with |- context [has_undefined ?l] => destruct (has_undefined l) end;
    [intros [= _ <-]; by left|].
  unfold fs_call. destruct (store_fault env RejectUpdate); [intros [= _ <-]; by left|].
  cbn [coll]. rewrite Hd. cbv beta iota.
  change (assign d _) with (rejected d req_body (clock w)).
  destruct (store_fault env RejectReget); cbv beta iota.
  { intros [= _ <-]. right. by exists d. }
  cbn [coll set_coll withdrawals]. rewrite lookup_insert_eq.
  match goal with |- context [rendered id (Some ?d') env ?W] =>
    destruct (rendered id (Some d') env W) as [[shownData|e] W'] eqn:Hr;
    apply rendered_world in Hr as ->
  end; cbv beta iota; intros [= _ <-]; right; by exists d.
Qed.

(** ** Approve pays at most once, and only a pending request *)

(** X4. Whatever the environment and however Approve ends, the requests it adds
    to the outbox are: none; or, only when the stored record is pending, the
    token request, one payout request built from that record, or both.  And
    an answer of 200 means that the record was pending, that the payout
    request was sent, and that the record is now stored approved. *)
Theorem approve_pays_at_most_once (env : Env) (w w' : World) (id : string)
    (req_body : Doc) (r : Outcome Response) :
  approve id req_body env w = (r, w') ->
  exists calls,
    outbox w' = (outbox w ++ calls)%list
    /\ payout_traffic env w id calls
    /\ (forall resp, r = Ok resp -> code resp = 200 ->
        exists d token,
          withdrawals w !! id = Some d
          /\ field d "status" = JStr "pending"
          /\ payout_call d token ∈ calls
          /\ stored_field w' id "status" = JStr "approved").
Proof.
  intros Hrun.
  destruct (approve_effect _ _ _ _ _ _ Hrun) as (calls & Ho & Ht & _ & Hok).
  exists calls. split; [done|]. split; [done|].
  intros resp Hr Hc. destruct (Hok resp Hr Hc) as (d & token & data & Hd & Hs & Hin & Hw).
  exists d, token. split; [done|]. split; [done|]. split; [done|].
  unfold stored_field. rewrite Hw.
  by destruct (approved_fields d req_body data (clock w')) as (-> & _).
Qed.

(** Approving the scenario request sends what the theorem allows for a
    pending record; approving it again sends nothing. *)
Lemma approve_pays_at_most_once_witness :
  (exists calls, outbox w_approved = (outbox w_pending ++ calls)%list
      /\ payout_traffic env_up w_pending "wd-1" calls)
  /\ outbox (approve "wd-1" ∅ env_up w_approved).2 = outbox w_approved.
Proof.
  split.
  - destruct (approve_pays_at_most_once env_up w_pending w_approved "wd-1" ∅
                (approve "wd-1" ∅ env_up w_pending).1)
      as (calls & Ho & Ht & _).
    { unfold w_approved. apply surjective_pairing. }
    exists calls. split; [exact Ho | exact Ht].
  - destruct (approve "wd-1" ∅ env_up w_approved) as [r w'] eqn:E.
    destruct (approve_pays_at_most_once _ _ _ _ _ _ E) as (calls & Ho & Ht & _).
    destruct Ht as [-> | (d & token & Hd & Hs & _)].
    + cbn [snd]. by rewrite Ho, app_nil_r.
    + exfalso. revert Hs.
      assert (withdrawals w_approved !! "wd-1" = Some approved_sample) as Hd' by by_vm.
      rewrite Hd' in Hd. injection Hd as <-.
      assert (field approved_sample "status" = JStr "approved") as -> by by_vm.
      discriminate.
Defined.

(** ** The status of a record only moves forward *)





(** ** Create is all or nothing *)

(** X8. Whatever the environment, a withdrawal request ends in one of two ways:
    it answers 200 with the generated id, which was unused, and the
    withdrawals are the old ones plus the new pending document under that
    id; or it answers 400 or 500 and the withdrawals are as before.  The
    payments are never touched, and the handler never throws. *)
Theorem create_is_all_or_nothing (env : Env) (w w' : World) (req_body : Doc)
    (r : Outcome Response) :
  withdrawal_request req_body env w = (r, w') ->
  payments w' = payments w
  /\ ((r = Ok (submitted (auto_id env))
       /\ withdrawals w !! auto_id env = None
       /\ exists receiver_info now,
            withdrawals w'
            = <[auto_id env := new_withdrawal req_body receiver_info now]>
                (withdrawals w))
      \/ (withdrawals w' = withdrawals w
          /\ exists resp, r = Ok resp /\ (code resp = 400 \/ code resp = 500))).
Proof.
  unfold withdrawal_request, try_catch, bind.
  match goal with |- context [if ?c then _ else _] => destruct c end.
  { intros [= <- <-]. split; [done|]. right. split; [done|]. eexists. split; [done|].
    by left. }
  destruct (getAccessToken env w) as [[token|e] w0] eqn:Htok;
    destruct (getAccessToken_frame _ _ _ _ Htok) as [Hw Hp].
  2:{ intros [= <- <-]. split; [done|]. right. split; [done|]. eexists.
      split; [done|]. by right. }
  unfold axios_post.
  change (mkCall VerifyReceiver _ (Some token)) with (verify_call req_body token).
  set (sent := send (verify_call req_body token) (latency env VerifyReceiver) w0).
  assert (withdrawals sent = withdrawals w) as Hws by done.
  assert (payments sent = payments w) as Hps by done.
  destruct (gateway env VerifyReceiver) as [reply|cause]; cbv beta iota.
  2:{ intros [= <- <-]. split; [done|]. right. split; [done|]. eexists.
      split; [done|]. by right. }
  destruct (is_nullish reply) eqn:Hn.
  { destruct (prop_nullish reply "status" Hn) as [e ->]. intros [= <- <-].
    split; [done|]. right. split; [done|]. eexists. split; [done|]. by right. }
  rewrite !(prop_ok _ _ Hn). cbn [ret].
  destruct (str_is (opt_prop reply "status") "success"); cbn [negb].
  2:{ intros [= <- <-]. split; [done|]. right. split; [done|]. eexists.
      split; [done|]. by left. }
  unfold fs_add, bind, get_world.
  match goal with |- context [has_undefined ?l] => destruct (has_undefined l) end;
    cbv beta iota.
  { intros [= <- <-]. split; [done|]. right. split; [done|]. eexists.
    split; [done|]. by right. }
  unfold fs_call. destruct (store_fault env WithdrawalAdd); cbv beta iota.
  { intros [= <- <-]. split; [done|]. right. split; [done|]. eexists.
    split; [done|]. by right. }
  cbn [coll]. rewrite Hws.
  destruct (withdrawals w !! auto_id env) eqn:Hid; cbv beta iota.
  { intros [= <- <-]. split; [done|]. right. split; [done|]. eexists.
    split; [done|]. by right. }
  intros [= <- <-]. split; [done|]. left. split; [done|]. split; [done|].
  by exists (opt_prop reply "data"), (clock sent).
Qed.

(** The scenario request at start is stored; the request for amount zero is
    not. *)
Lemma create_is_all_or_nothing_witness :
  (exists receiver_info now,
     withdrawals w_pending
     = <["wd-1" := new_withdrawal sample_request receiver_info now]>
         (withdrawals w_start))
  /\ withdrawals (withdrawal_request zero_request env_up w_start).2
     = withdrawals w_start.
Proof.
  split.
  - destruct (create_is_all_or_nothing env_up w_start w_pending sample_request
                (withdrawal_request sample_request env_up w_start).1)
      as (_ & [(_ & _ & Hnew)|(_ & resp & Hr & Hc)]).
    { unfold w_pending. apply surjective_pairing. }
    + exact Hnew.
    + exfalso.
      assert ((withdrawal_request sample_request env_up w_start).1
              = Ok (submitted "wd-1")) as Hok by by_vm.
      rewrite Hok in Hr. injection Hr as <-. destruct Hc as [Hc|Hc]; discriminate Hc.
  - destruct (withdrawal_request zero_request env_up w_start) as [r w'] eqn:E.
    destruct (create_is_all_or_nothing _ _ _ _ _ E)
      as (_ & [(Hr & _)|(Hw & _)]); [|exact Hw].
    exfalso.
    assert ((withdrawal_request zero_request env_up w_start).1
            = Ok (res_status_json 400 (err "Missing required fields"))) as Hbad
      by by_vm.
    rewrite E in Hbad. cbn [fst] in Hbad. rewrite Hr in Hbad.
    apply (f_equal (fun o => match o with Ok resp => code resp | Throw _ => 0 end))
      in Hbad. discriminate Hbad.
Defined.

(** ** Create, when the gateway fails *)



(** ** Creating a payment: what is refused and what is not recorded *)

(** X10. A payment request with a missing or falsy amount or currency is
    answered 400 [Amount and currency are required] and nothing happens.  A
    request that passes, once the token is obtained, when the gateway answers
    the transaction request with a 2xx reply whose status is not success:
    the reply is returned to the caller with HTTP 200 as it is, and no
    payment record is written. *)
Theorem payment_create_without_record (env : Env) (w w1 : World) (req_body : Doc) :
  (truthy (field req_body "amount") = false
   \/ truthy (field req_body "currency") = false ->
   payment_create req_body env w
   = (Ok (res_status_json 400 (err "Amount and currency are required")), w))
  /\ (truthy (field req_body "amount") = true ->
      truthy (field req_body "currency") = true ->
      forall token reply,
        getAccessToken env w = (Ok token, w1) ->
        gateway env TransactionCreate = AxResolve reply ->
        is_nullish reply = false ->
        str_is (opt_prop reply "status") "success" = false ->
        payment_create req_body env w
        = (Ok (mkResponse 200 reply),
           send (create_call env req_body token) (latency env TransactionCreate) w1)
        /\ payments w1 = payments w /\ withdrawals w1 = withdrawals w).
Proof.
  split.
  - intros Hf. unfold payment_create, try_catch.
    assert (negb (truthy (field req_body "amount"))
            || negb (truthy (field req_body "currency")) = true) as ->; [|done].
    destruct Hf as [-> | ->]; [done | apply orb_true_r].
  - intros Ha Hc token reply Htok Hg Hn Hs.
    destruct (getAccessToken_frame _ _ _ _ Htok) as [Hw Hp]. split; [|done].
    unfold payment_create, try_catch, bind, axios_post, ask.
    rewrite Ha, Hc. cbn [negb orb]. rewrite Htok. simpl.
    change (mkCall TransactionCreate _ (Some token))
      with (create_call env req_body token).
    rewrite Hg. rewrite (prop_ok _ _ Hn). simpl. by rewrite Hs.
Qed.

(** A payment of 250 HTG for which the gateway answers 200 with an error in
    its body: the caller gets that body with HTTP 200 and nothing is
    recorded. *)
Lemma payment_create_without_record_witness :
  exists reply w',
    payment_create sample_payment (env_with gateway_create_soft_error no_fault)
      w_start = (Ok (mkResponse 200 reply), w')
    /\ opt_prop reply "status" = JStr "error"
    /\ payments w' = ∅.
Proof.
  destruct (payment_create_without_record
              (env_with gateway_create_soft_error no_fault) w_start w_token
              sample_payment) as [_ Hsoft].
  destruct (Hsoft eq_refl eq_refl (JStr "tok-1") _ (token_fetched _ _ eq_refl)
              eq_refl eq_refl eq_refl) as (Hrun & _).
  do 2 eexists. split; [exact Hrun|]. split; reflexivity.
Defined.

(** ** The routes that only relay *)

(** X11. The receiver check and the payment-methods listing, whatever the
    environment: neither collection is written, and the answer is the 400 of
    the missing field, with the world untouched; or the body of the gateway's
    2xx reply, unchanged, with HTTP 200; or a 500 that carries the details of
    the error that was thrown. *)
Theorem relay_routes_only_relay (env : Env) (w : World) (req_body : Doc) :
  (forall r w', verify_receiver req_body env w = (r, w') ->
     withdrawals w' = withdrawals w /\ payments w' = payments w
     /\ ((truthy (field req_body "email_or_phone") = false /\ w' = w
          /\ r = Ok (res_status_json 400 (err "Email or phone is required")))
         \/ (exists data, gateway env VerifyReceiver = AxResolve data
                          /\ r = Ok (mkResponse 200 data))
         \/ (exists cause,
               r = Ok (res_status_json 500
                         (err_details "Failed to verify receiver" cause)))))
  /\ (forall r w', payment_methods req_body env w = (r, w') ->
     withdrawals w' = withdrawals w /\ payments w' = payments w
     /\ ((truthy (field req_body "currency") = false /\ w' = w
          /\ r = Ok (res_status_json 400 (err "Currency is required")))
         \/ (exists data, gateway env PaymentMethods = AxResolve data
                          /\ r = Ok (mkResponse 200 data))
         \/ (exists cause,
               r = Ok (res_status_json 500
                         (err_details "Failed to get payment methods" cause))))).
Proof.
  split; intros r w'.
  - unfold verify_receiver, try_catch, bind.
    destruct (truthy (field req_body "email_or_phone")) eqn:Ht; cbn [negb].
    2:{ intros [= <- <-]. split; [done|]. split; [done|]. by left. }
    destruct (getAccessToken env w) as [[token|e] w0] eqn:Htok;
      destruct (getAccessToken_frame _ _ _ _ Htok) as [Hw Hp].
    2:{ intros [= <- <-]. split; [done|]. split; [done|]. right; right. eauto. }
    unfold axios_post.
    destruct (gateway env VerifyReceiver) as [data|cause] eqn:Hg; intros [= <- <-].
    + split; [done|]. split; [done|]. right; left. eauto.
    + split; [done|]. split; [done|]. right; right. eauto.
  - unfold payment_methods, try_catch, bind.
    destruct (truthy (field req_body "currency")) eqn:Ht; cbn [negb].
    2:{ intros [= <- <-]. split; [done|]. split; [done|]. by left. }
    destruct (getAccessToken env w) as [[token|e] w0] eqn:Htok;
      destruct (getAccessToken_frame _ _ _ _ Htok) as [Hw Hp].
    2:{ intros [= <- <-]. split; [done|]. split; [done|]. right; right. eauto. }
    unfold axios_post.
    destruct (gateway env PaymentMethods) as [data|cause] eqn:Hg; intros [= <- <-].
    + split; [done|]. split; [done|]. right; left. eauto.
    + split; [done|]. split; [done|]. right; right. eauto.
Qed.

(** ** The shape of the stored records *)

(** X14. In every world the process can reach, each stored withdrawal carries its
    creation time; while it is pending, [processed_by] and [processed_at]
    are null and it has none of the keys [ezipay_response], [error_message]
    and [rejection_reason]; once approved or rejected, [processed_by] is
    truthy and [processed_at] is a time. *)
Theorem reachable_record_shape (w : World) (id : string) (d : Doc) :
  reachable w ->
  withdrawals w !! id = Some d ->
  (exists t, field d "created_at" = JTime t)
  /\ (field d "status" = JStr "pending" ->
      field d "processed_by" = JNull /\ field d "processed_at" = JNull
      /\ d !! "ezipay_response" = None /\ d !! "error_message" = None
      /\ d !! "rejection_reason" = None)
  /\ (field d "status" = JStr "approved" \/ field d "status" = JStr "rejected" ->
      truthy (field d "processed_by") = true
      /\ exists t, field d "processed_at" = JTime t).
Proof.
  intros Hreach Hd.
  destruct (reachable_records_ok w Hreach id d Hd) as (_ & Hp & Ha & Hc).
  split; [exact Hc|]. split; [exact Hp | exact Ha].
Qed.

(** In the statistics scenario the third request, approved by op-7, names
    its operator. *)
Lemma reachable_record_shape_witness :
  exists d, withdrawals w_five !! "wd-3" = Some d
    /\ field d "status" = JStr "approved"
    /\ truthy (field d "processed_by") = true.
Proof.
  assert (stored_field w_five "wd-3" "status" = JStr "approved") as Hs by by_vm.
  unfold stored_field in Hs.
  destruct (withdrawals w_five !! "wd-3") as [d|] eqn:Hd; [|discriminate Hs].
  destruct (reachable_record_shape w_five "wd-3" d w_five_reachable Hd)
    as (_ & _ & Hby).
  exists d. split; [done|]. split; [done|]. apply Hby. by left.
Defined.

(** ** Reject touches pending records only *)

(** X7. Whatever the environment and however Reject ends (also when a store call
    fails), it sends nothing, leaves the payments and the token cache alone,
    and either writes nothing or the stored record was pending and is now
    the rejected one: unlike Approve, it never rewrites a processed
    record. *)
Theorem reject_writes_only_pending (env : Env) (w w' : World) (id : string)
    (req_body : Doc) (r : Outcome Response) :
  reject id req_body env w = (r, w') ->
  outbox w' = outbox w
  /\ (withdrawals w' = withdrawals w
      \/ exists d, withdrawals w !! id = Some d
           /\ field d "status" = JStr "pending"
           /\ withdrawals w' = <[id := rejected d req_body (clock w)]> (withdrawals w))
  /\ (forall d, withdrawals w !! id = Some d ->
      field d "status" <> JStr "pending" -> withdrawals w' = withdrawals w).
Proof.
  intros Hrun. split; [exact (reject_outbox _ _ _ _ _ _ Hrun)|].
  pose proof (reject_effect _ _ _ _ _ _ Hrun) as Heff. split; [exact Heff|].
  intros d Hd Hs. destruct Heff as [->|(d0 & Hd0 & Hs0 & _)]; [done|].
  rewrite Hd in Hd0. injection Hd0 as <-. by destruct Hs.
Qed.

(** A Reject of the approved scenario request while Firestore rejects reads
    changes nothing. *)
Lemma reject_writes_only_pending_witness :
  withdrawals (reject "wd-1" rejection_body (env_with gateway_up read_down)
                      w_approved).2
  = withdrawals w_approved.
Proof.
  destruct (reject "wd-1" rejection_body (env_with gateway_up read_down) w_approved)
    as [r w'] eqn:E.
  destruct (reject_writes_only_pending _ _ _ _ _ _ E) as (_ & _ & Hsafe).
  cbn [snd]. apply (Hsafe approved_sample); [by_vm|].
  assert (field approved_sample "status" = JStr "approved") as -> by by_vm.
  discriminate.
Defined.

(** ** A falsy token is never served from the cache *)

(** X2. When the gateway grants a token that is falsy (an empty string, or a
    success reply without [access_token]), the token is returned and stored
    with its expiry, but no later call is answered from the cache: each one
    posts the token request again. *)
Theorem falsy_token_is_fetched_again (env env' : Env) (w : World) (tok : JValue)
    (dt : Z) :
  cache_valid w (clock w) = false ->
  grants (gateway env AccessToken) tok ->
  truthy tok = false ->
  exists w1, getAccessToken env w = (Ok tok, w1)
    /\ accessToken w1 = tok
    /\ tokenExpiry w1 = Some (clock w1 + 7200000)
    /\ forall r w2, getAccessToken env' (advance dt w1) = (r, w2) ->
       outbox w2 = (outbox w1 ++ [token_request env'])%list.
Proof.
  intros Hmiss Hg Htok. eexists. split; [by apply getAccessToken_fetched|].
  split; [done|]. split; [done|]. intros r w2 Hrun.
  destruct (getAccessToken_outbox _ _ _ _ Hrun) as [[Hv _]|[_ Ho]]; [|exact Ho].
  exfalso. revert Hv. unfold cache_valid. simpl. by rewrite Htok.
Qed.

Lemma falsy_token_is_fetched_again_witness :
  exists w1,
    getAccessToken (env_with gateway_empty_token no_fault) w_start = (Ok (JStr ""), w1)
    /\ List.length (outbox (getAccessToken env_up (advance 1 w1)).2) = 2%nat.
Proof.
  destruct (falsy_token_is_fetched_again (env_with gateway_empty_token no_fault)
              env_up w_start (JStr "") 1 eq_refl) as (w1 & Hrun & _ & _ & Hagain).
  { eexists. repeat split; by_vm. }
  { reflexivity. }
  exists w1. split; [exact Hrun|].
  destruct (getAccessToken env_up (advance 1 w1)) as [r w2] eqn:E.
  cbn [snd]. rewrite (Hagain r w2 eq_refl), length_app.
  unfold env_with, env_of in Hrun.
  assert (List.length (outbox w1) = 1%nat) as ->; [|reflexivity].
  revert Hrun.
  unfold getAccessToken, try_catch, bind, get_world, Date_now, ask, axios_post.
  simpl. by intros [= <-].
Defined.

(** ** Every route answers *)

Lemma never_throws_ret {A} (a : A) : never_throws (ret a).
Proof. intros env w. by exists a, w. Qed.

Lemma never_throws_bind {A B} (m : M A) (k : A -> M B) :
  never_throws m -> (forall a, never_throws (k a)) -> never_throws (bind m k).
Proof.
  intros Hm Hk env w. destruct (Hm env w) as (a & w1 & Ha).
  destruct (Hk a env w1) as (b & w2 & Hb). exists b, w2. unfold bind.
  by rewrite Ha.
Qed.

Lemma never_throws_console_error label v : never_throws (console_error label v).
Proof. intros env w. by exists tt, (log label v w). Qed.

Lemma never_throws_try_catch {A} (m : M A) (h : JsError -> M A) :
  (forall e, never_throws (h e)) -> never_throws (try_catch m h).
Proof.
  intros Hh env w. unfold try_catch.
  destruct (m env w) as [[a|e] w1]; [by exists a, w1 | apply Hh].
Qed.

Lemma ends_with_ret {A} (Q : A -> Prop) a : Q a -> ends_with Q (ret a).
Proof. by intros HQ env w r w' [= <- _] a' [= <-]. Qed.

Lemma ends_with_bind {A B} (Q : B -> Prop) (m : M A) (k : A -> M B) :
  (forall a, ends_with Q (k a)) -> ends_with Q (bind m k).
Proof.
  intros Hk env w r w'. unfold bind.
  destruct (m env w) as [[a|e] w1]; [apply Hk | by intros [= <- _]].
Qed.

Lemma ends_with_try_catch {A} (Q : A -> Prop) (m : M A) (h : JsError -> M A) :
  ends_with Q m -> (forall e, ends_with Q (h e)) -> ends_with Q (try_catch m h).
Proof.
  intros Hm Hh env w r w'. unfold try_catch.
  destruct (m env w) as [[a|e] w1] eqn:E; [|apply Hh].
  intros [= <- _]. by eapply Hm.
Qed.

Ltac known := first [by left | right; by left | right; right; by left
                    | right; right; by right].

Ltac ends :=
  repeat first
    [ apply ends_with_ret; unfold known_code; simpl; known
    | apply ends_with_try_catch; [|intros ?]
    | apply ends_with_bind; intros ?
    | match goal with
      | |- ends_with _ (if ?c then _ else _) => destruct c
      | |- ends_with _ (match ?x with Some _ => _ | None => _ end) => destruct x
      end ].

Ltac no_throw :=
  repeat first
    [ apply never_throws_ret
    | apply never_throws_console_error
    | apply never_throws_try_catch; intros ?
    | apply never_throws_bind; [|intros ?] ].

(** X15. Each embedded route, in every environment and world, ends with an
    answer (no exception leaves the handler) and the answer's HTTP status is
    200, 400, 404 or 500. *)
Theorem every_route_answers (request : Request) (env : Env) (w : World) :
  exists resp w', handle request env w = (Ok resp, w') /\ known_code resp.
Proof.
  assert (never_throws (handle request)) as Hn.
  { destruct request; simpl;
      [unfold payment_create | unfold payment_methods | unfold verify_receiver
      | unfold withdrawal_request | unfold approve, approve_catch | unfold reject
      | unfold withdrawal_status | unfold stats]; no_throw. }
  assert (ends_with known_code (handle request)) as He.
  { destruct request; simpl;
      [unfold payment_create | unfold payment_methods | unfold verify_receiver
      | unfold withdrawal_request | unfold approve, approve_try, approve_catch
      | unfold reject | unfold withdrawal_status | unfold stats]; cbv zeta; ends. }
  destruct (Hn env w) as (resp & w' & Hrun). exists resp, w'.
  split; [done|]. by apply (He env w _ _ Hrun).
Qed.
